(** * Shopping cart: the in-memory mirror ([api.py]) and its store ([database.py])

    A shallow embedding of [shopping_cart/api.py] and
    [shopping_cart/database.py].  Python exceptions are modelled by an
    outcome type; the mutable [ShoppingCart] object, its [Database], the
    process-wide logging sink and the file system form one explicit state,
    which survives a raised exception as Python object state does.

    Prices are Python numbers: [bool], arbitrary-precision [int] and binary64
    [float] (the kernel's primitive floats), with Python's mixed arithmetic.

    The file has three parts: the model, the scenarios and vocabulary used by
    the statements, and the properties. *)

From Stdlib Require Import ZArith Lia Bool String.
From Stdlib Require Import PrimFloat SpecFloat FloatOps.
From stdpp Require Import base option list gmap strings.

#[local] Open Scope Z_scope.
#[local] Set Warnings "-inexact-float".

(** * Part 1: the model *)

(** ** Python values *)

(** The values a caller may hand to [add_item]; [PyOther] stands for an object
    of any other type, named by its type ([bytes], [list], [Decimal], ...). *)
Inductive pyval : Type :=
| PyNone
| PyBool (b : bool)
| PyInt (z : Z)
| PyFloat (f : float)
| PyStr (s : string)
| PyOther (type_name : string).

(** The values for which [isinstance(price, (int, float))] holds; [bool] is a
    subclass of [int]. *)
Inductive pynum : Type :=
| NBool (b : bool)
| NInt (z : Z)
| NFloat (f : float).

Definition as_str (v : pyval) : option string :=
  match v with PyStr s => Some s | _ => None end.

Definition as_num (v : pyval) : option pynum :=
  match v with
  | PyBool b => Some (NBool b)
  | PyInt z => Some (NInt z)
  | PyFloat f => Some (NFloat f)
  | _ => None
  end.

(** [isinstance(item, str)] *)
Definition isinstance_str (v : pyval) : bool :=
  match as_str v with Some _ => true | None => false end.

(** [isinstance(price, (int, float))] *)
Definition isinstance_int_float (v : pyval) : bool :=
  match as_num v with Some _ => true | None => false end.

Definition num_to_pyval (n : pynum) : pyval :=
  match n with NBool b => PyBool b | NInt z => PyInt z | NFloat f => PyFloat f end.

(** ** Exceptions and outcomes *)

Inductive exn : Type :=
| ValueError
| UnicodeEncodeError      (* a subclass of ValueError *)
| OverflowError
| IntegrityError          (* sqlite3.IntegrityError *)
| OperationalError        (* sqlite3.OperationalError *)
| FileNotFoundError       (* the OSError subclasses raised by open *)
| PermissionError
| IsADirectoryError
| OSError (errno : Z).

Inductive outcome (A : Type) : Type :=
| Ok (a : A)
| Raise (e : exn).
Arguments Ok {A} a.
Arguments Raise {A} e.

(** [except FileNotFoundError] *)
Definition is_FileNotFoundError (e : exn) : bool :=
  match e with FileNotFoundError => true | _ => false end.

(** [except ValueError]: [UnicodeEncodeError] is a subclass of [ValueError]. *)
Definition is_ValueError (e : exn) : bool :=
  match e with ValueError | UnicodeEncodeError => true | _ => false end.

(** ** Text *)

(** A [string] stands for a Python [str] through its UTF-8 bytes; a lone
    surrogate (U+D800 to U+DFFF), which UTF-8 proper excludes, through the
    three bytes ED A0..BF 80..BF that the [surrogatepass] handler writes for
    it.  The strict encoder, which [sqlite3] uses to bind a [str] and a text
    file opened in UTF-8 uses to write one, raises [UnicodeEncodeError] on
    such a [str]. *)
Fixpoint has_surrogate (s : string) : bool :=
  match s with
  | EmptyString => false
  | String c rest =>
      match rest with
      | EmptyString => false
      | String d _ =>
          (Nat.eqb (Ascii.nat_of_ascii c) 237 && Nat.leb 160 (Ascii.nat_of_ascii d))
          || has_surrogate rest
      end
  end.

Definition utf8_encodable (s : string) : bool := negb (has_surrogate s).

(** The [str] ["\ud800"], a lone surrogate. *)
Definition lone_surrogate : string :=
  String (Ascii.ascii_of_nat 237)
    (String (Ascii.ascii_of_nat 160) (String (Ascii.ascii_of_nat 128) EmptyString)).

(** ** Numbers *)

(** Rounding of an integer to the nearest binary64 value, ties to even: what
    both [float(n)] in Python and SQLite's integer to REAL conversion do. *)
Definition Z_to_spec_float (z : Z) : spec_float :=
  binary_normalize prec emax z 0 false.

(** The value of a [bool] as an integer. *)
Definition bool_to_Z (b : bool) : Z := if b then 1 else 0.

(** [float(n)]: [OverflowError] when an [int] is too large for a binary64. *)
Definition py_float (n : pynum) : outcome float :=
  match n with
  | NFloat f => Ok f
  | NBool b => Ok (SF2Prim (Z_to_spec_float (bool_to_Z b)))
  | NInt z =>
      match Z_to_spec_float z with
      | S754_infinity _ => Raise OverflowError
      | sf => Ok (SF2Prim sf)
      end
  end.

(** [a + b] on Python numbers: exact on [int] and [bool], binary64 as soon as
    one operand is a [float]. *)
Definition py_add (a b : pynum) : outcome pynum :=
  match a, b with
  | NFloat x, _ =>
      match py_float b with Ok y => Ok (NFloat (x + y)%float) | Raise e => Raise e end
  | _, NFloat y =>
      match py_float a with Ok x => Ok (NFloat (x + y)%float) | Raise e => Raise e end
  | NBool x, NBool y => Ok (NInt (bool_to_Z x + bool_to_Z y))
  | NBool x, NInt y => Ok (NInt (bool_to_Z x + y))
  | NInt x, NBool y => Ok (NInt (x + bool_to_Z y))
  | NInt x, NInt y => Ok (NInt (x + y))
  end.

(** [sum(xs)]: left to right, starting from the [int] 0, one [+] per element
    (CPython up to 3.11; from 3.12 on [sum] compensates the rounding errors of
    a run of [float]s). *)
Fixpoint py_sum_from (acc : pynum) (xs : list pynum) : outcome pynum :=
  match xs with
  | [] => Ok acc
  | x :: rest =>
      match py_add acc x with
      | Ok acc' => py_sum_from acc' rest
      | Raise e => Raise e
      end
  end.

Definition py_sum (xs : list pynum) : outcome pynum := py_sum_from (NInt 0) xs.

(** Truth value of a number: zero of any kind is false, NaN is true. *)
Definition num_truthy (n : pynum) : bool :=
  match n with
  | NBool b => b
  | NInt z => negb (z =? 0)
  | NFloat f => negb (f =? 0)%float
  end.

(** Truth value of an optional argument whose default is [None]. *)
Definition opt_num_truthy (o : option pynum) : bool :=
  match o with Some n => num_truthy n | None => false end.

Definition opt_str_truthy (o : option string) : bool :=
  match o with Some s => negb (String.eqb s EmptyString) | None => false end.

(** Exact comparison of a binary64 with an integer. *)
Definition float_eq_Z (f : float) (z : Z) : bool :=
  match Prim2SF f with
  | S754_zero _ => z =? 0
  | S754_finite s m e =>
      let v := if s then Z.neg m else Z.pos m in
      if 0 <=? e then v * 2 ^ e =? z else v =? z * 2 ^ (- e)
  | _ => false
  end.

(** [a == b] on numbers. *)
Definition num_eq (a b : pynum) : bool :=
  match a, b with
  | NFloat x, NFloat y => (x =? y)%float
  | NFloat x, NInt z | NInt z, NFloat x => float_eq_Z x z
  | NFloat x, NBool c | NBool c, NFloat x => float_eq_Z x (bool_to_Z c)
  | NInt x, NInt y => x =? y
  | NInt x, NBool c | NBool c, NInt x => x =? bool_to_Z c
  | NBool c, NBool d => Bool.eqb c d
  end.

(** ** SQLite: the table [cart] and the statements run on it *)

(** What the [sqlite3] module hands to SQLite for a bound parameter. *)
Inductive sqlval : Type :=
| SqlNull
| SqlInt (z : Z)
| SqlReal (f : float)
| SqlText (s : string).

Definition int64_min : Z := - 2 ^ 63.
Definition int64_max : Z := 2 ^ 63 - 1.

(** Binding a Python number: an [int] outside 64 bits raises [OverflowError],
    a NaN is bound as NULL. *)
Definition bind_num (n : pynum) : outcome sqlval :=
  match n with
  | NBool b => Ok (SqlInt (bool_to_Z b))
  | NInt z =>
      if (int64_min <=? z) && (z <=? int64_max) then Ok (SqlInt z)
      else Raise OverflowError
  | NFloat f => if is_nan f then Ok SqlNull else Ok (SqlReal f)
  end.

(** Binding a Python [str]: the strict UTF-8 encoder raises on a lone
    surrogate. *)
Definition bind_text (s : string) : outcome sqlval :=
  if utf8_encodable s then Ok (SqlText s) else Raise UnicodeEncodeError.

Definition bind_opt_text (o : option string) : outcome unit :=
  match o with
  | Some s => match bind_text s with Ok _ => Ok tt | Raise e => Raise e end
  | None => Ok tt
  end.

(** Column [price REAL NOT NULL]: REAL affinity turns an integer into a
    float; NULL violates the constraint.  SQLite keeps a REAL whose value is
    an integer as an integer on disk, so that the negative zero is read back
    as 0.0. *)
Definition real_not_null (v : sqlval) : outcome float :=
  match v with
  | SqlReal f => Ok (if (f =? 0)%float then 0%float else f)
  | SqlInt z => Ok (SF2Prim (Z_to_spec_float z))
  | SqlNull => Raise IntegrityError
  | SqlText _ => Raise IntegrityError
  end.

(** The REAL a bound price is stored as. *)
Definition stored_price (n : pynum) : outcome float :=
  match bind_num n with
  | Ok v => real_not_null v
  | Raise e => Raise e
  end.

(** A row of [cart (id INTEGER PRIMARY KEY, item TEXT NOT NULL, price REAL
    NOT NULL)], the schema every [Database] object works on once its
    constructor has returned. *)
Record row : Type := Row { row_id : Z; row_item : string; row_price : float }.

(** The table in rowid order, which is the order of a full scan. *)
Definition table : Type := list row.

(** The rowid SQLite gives to a row inserted without one: one more than the
    largest in use, 1 in an empty table.  (The random choice SQLite makes once
    the largest rowid is [2^63-1] is outside this model.) *)
Fixpoint max_rowid (t : table) : option Z :=
  match t with
  | [] => None
  | r :: rest =>
      match max_rowid rest with
      | None => Some (row_id r)
      | Some m => Some (Z.max (row_id r) m)
      end
  end.

Definition next_rowid (t : table) : Z :=
  match max_rowid t with None => 1 | Some m => m + 1 end.

(** [INSERT INTO cart (item, price) VALUES (?, ?)], with [cursor.lastrowid].
    The parameters are bound in their order, [item] first. *)
Definition sql_insert (item : string) (price : pynum) (t : table)
  : outcome (Z * table) :=
  match bind_text item with
  | Raise e => Raise e
  | Ok _ =>
      match stored_price price with
      | Ok f => let i := next_rowid t in Ok (i, t ++ [Row i item f])
      | Raise e => Raise e
      end
  end.

(** [DELETE FROM cart WHERE item = ?] *)
Definition sql_delete (item : string) (t : table) : table :=
  List.filter (fun r => negb (String.eqb (row_item r) item)) t.

(** [WHERE item = ?] *)
Definition matches (name : string) (r : row) : bool :=
  String.eqb (row_item r) name.

(** [SET item = ?] and/or [SET price = ?]; [None] leaves a column as it is. *)
Definition set_row (new_name : option string) (new_price : option float)
  (r : row) : row :=
  Row (row_id r) (default (row_item r) new_name) (default (row_price r) new_price).

(** The rows after [UPDATE cart SET ... WHERE item = ?], once every parameter
    is bound: the NOT NULL check happens per updated row, so a NULL price fails
    only if a row matches. *)
Definition sql_update_bound (new_name : option string) (new_price : option sqlval)
  (old_name : string) (t : table) : outcome table :=
  match new_price with
  | None => Ok (map (fun r => if matches old_name r then set_row new_name None r else r) t)
  | Some v =>
      if existsb (matches old_name) t then
        match real_not_null v with
        | Ok f => Ok (map (fun r => if matches old_name r
                                    then set_row new_name (Some f) r else r) t)
        | Raise e => Raise e
        end
      else Ok t
  end.

(** [UPDATE cart SET ... WHERE item = ?]; [None] leaves a column as it is.
    The parameters are bound, in their order (new name, new price, old name),
    before the statement runs. *)
Definition sql_update (new_name : option string) (new_price : option pynum)
  (old_name : string) (t : table) : outcome table :=
  match bind_opt_text new_name with
  | Raise e => Raise e
  | Ok _ =>
      match (match new_price with
             | None => Ok None
             | Some p => match bind_num p with
                         | Ok v => Ok (Some v)
                         | Raise e => Raise e
                         end
             end) with
      | Raise e => Raise e
      | Ok bound_price =>
          match bind_text old_name with
          | Raise e => Raise e
          | Ok _ => sql_update_bound new_name bound_price old_name t
          end
      end
  end.

(** A row of the table as [create_table] declares it, [cart (id INTEGER
    PRIMARY KEY, item TEXT, price REAL)]: a column may hold NULL. *)
Record raw_row : Type := RawRow {
  raw_id : Z;
  raw_item : option string;
  raw_price : option float
}.

Inductive cart_table : Type :=
| Legacy (rows : list raw_row)     (* columns without NOT NULL *)
| Current (rows : table).          (* columns with NOT NULL *)

(** The database file once both [CREATE TABLE IF NOT EXISTS] statements have
    run: the table [cart], whether a table [cart_new] exists, and the rows of
    [schema_version]. *)
Record store : Type := mkStore {
  st_cart : cart_table;
  st_cart_new : bool;
  st_version : list Z
}.

Definition raw_of_row (r : row) : raw_row :=
  RawRow (row_id r) (Some (row_item r)) (Some (row_price r)).

Definition raw_rows (c : cart_table) : list raw_row :=
  match c with
  | Legacy rs => rs
  | Current t => map raw_of_row t
  end.

(** [INSERT INTO cart_new(item, price) SELECT item, price FROM cart]: the rows
    of [cart] in scan order, each inserted without an id into [cart_new];
    a NULL violates NOT NULL. *)
Fixpoint copy_rows (src : list raw_row) (cart_new : table) : outcome table :=
  match src with
  | [] => Ok cart_new
  | r :: rest =>
      match raw_item r, raw_price r with
      | Some n, Some p => copy_rows rest (cart_new ++ [Row (next_rowid cart_new) n p])
      | _, _ => Raise IntegrityError
      end
  end.

(** ** The cart object, the log and the file system *)

(** An entry of [ShoppingCart.items]: the dict [{"item", "price", "id"}].
    The key ["id"] is missing between the append and the backfill in
    [add_item]. *)
Record Item : Type := mkItem {
  item_id : option Z;
  item_name : string;
  item_price : pynum
}.

Inductive level : Type := INFO | WARNING | ERROR.

(** The messages handed to [logging]; numbers are kept as values, their
    rendering is not modelled. *)
Inductive message : Type :=
| MsgDbInitialized
| MsgCartInitialized
| MsgDbAdded (item : string) (id : Z) (price : pynum)
| MsgDbRemoved (item : string)
| MsgCartAdded (item : string) (id : Z) (price : float)
| MsgCartRemoved (item : string)
| MsgNoUpdates
| MsgCartUpdated (old_name shown_name : string) (shown_price : option pynum)
| MsgListExported (filename : string)
| MsgCartExported (filename : string)
| MsgExportFailed (filename : string).

(** What an export leaves in a file.  [Truncated] is a file opened with mode
    ['w'] whose writing did not complete. *)
Inductive file_data : Type :=
| Truncated
| TextList (lines : list (string * pynum))
| JsonDump (objects : list Item).

(** The file system as the exports see it: the paths [open(path, 'w')] fails
    on, the paths on which a write fails, and the files written so far. *)
Record filesystem : Type := mkFs {
  open_fault : gmap string exn;
  write_fault : gmap string exn;
  contents : gmap string file_data
}.

Record state : Type := mkState {
  items : list Item;                 (* self.items *)
  db : table;                        (* self.db *)
  log : list (level * message);      (* the logging sink *)
  fs : filesystem
}.

(** ** State and exception monad *)

Definition M (A : Type) : Type := state -> outcome A * state.

Definition ret {A} (a : A) : M A := fun s => (Ok a, s).
Definition raise {A} (e : exn) : M A := fun s => (Raise e, s).
Definition bind {A B} (m : M A) (k : A -> M B) : M B :=
  fun s => match m s with
           | (Ok a, s') => k a s'
           | (Raise e, s') => (Raise e, s')
           end.

Notation "x <- m ;; k" := (bind m (fun x => k))
  (at level 100, m at next level, right associativity).
Notation "m ;;; k" := (bind m (fun _ => k))
  (at level 100, right associativity).

(** Lifting of a computation that reads no state. *)
Definition lift {A} (o : outcome A) : M A := fun s => (o, s).

Definition get_items : M (list Item) := fun s => (Ok (items s), s).
Definition set_items (l : list Item) : M unit :=
  fun s => (Ok tt, mkState l (db s) (log s) (fs s)).
Definition get_db : M table := fun s => (Ok (db s), s).
Definition set_db (t : table) : M unit :=
  fun s => (Ok tt, mkState (items s) t (log s) (fs s)).
Definition get_fs : M filesystem := fun s => (Ok (fs s), s).
Definition set_fs (f : filesystem) : M unit :=
  fun s => (Ok tt, mkState (items s) (db s) (log s) f).

(** [logging.info], [logging.warning], [logging.error] *)
Definition logging (l : level) (m : message) : M unit :=
  fun s => (Ok tt, mkState (items s) (db s) (log s ++ [(l, m)]) (fs s)).

(** [try: m except <handles>: h] *)
Definition try_except {A} (m : M A) (handles : exn -> bool) (h : M A) : M A :=
  fun s => match m s with
           | (Raise e, s') => if handles e then h s' else (Raise e, s')
           | r => r
           end.

(** [open(filename, 'w')]: fails as the file system says, truncates the file
    otherwise. *)
Definition open_w (filename : string) : M unit :=
  f <- get_fs ;;
  match open_fault f !! filename with
  | Some e => raise e
  | None =>
      set_fs (mkFs (open_fault f) (write_fault f) (<[filename := Truncated]> (contents f)))
  end.

(** Writing to the open file and closing it.  [failure] is the exception
    raised while the text was produced, if any; [empty] says that nothing had
    been handed to the file by then.  What was handed to the file is flushed
    when the [with] block closes it, so a write fault of the path is raised
    there, also over a [failure]; when nothing was handed over, nothing is
    written and the path's fault does not show.  The file receives [data] only
    when neither happens. *)
Definition write_close (filename : string) (empty : bool) (failure : option exn)
  (data : file_data) : M unit :=
  f <- get_fs ;;
  match (if empty then None else write_fault f !! filename) with
  | Some e => raise e
  | None =>
      match failure with
      | Some e => raise e
      | None =>
          set_fs (mkFs (open_fault f) (write_fault f)
                       (<[filename := data]> (contents f)))
      end
  end.

(** [str(n)], as an f-string and [json.dump] call it: an [int] of more than
    4300 digits raises [ValueError] (the default limit of CPython 3.11). *)
Definition int_max_str_digits : Z := 4300.

Definition num_renders (n : pynum) : bool :=
  match n with
  | NInt z => Z.abs z <? 10 ^ int_max_str_digits
  | _ => true
  end.

(** ** [database.py]: class [Database] *)

Module Database.

(** [Database.add_item] *)
Definition add_item (item : string) (price : pynum) : M Z :=
  t <- get_db ;;
  r <- lift (sql_insert item price t) ;;
  set_db (snd r) ;;;
  logging INFO (MsgDbAdded item (fst r) price) ;;;
  ret (fst r).

(** [Database.remove_item]: when the name cannot be bound, nothing is deleted
    and nothing is logged. *)
Definition remove_item (item : string) : M unit :=
  t <- get_db ;;
  lift (bind_text item) ;;;
  set_db (sql_delete item t) ;;;
  logging INFO (MsgDbRemoved item).

(** [Database.update_item]: the three branches test the truth value of the
    arguments. *)
Definition update_item (old_name : string) (new_name : option string)
  (new_price : option pynum) : M unit :=
  t <- get_db ;;
  if opt_str_truthy new_name && opt_num_truthy new_price then
    t' <- lift (sql_update new_name new_price old_name t) ;; set_db t'
  else if opt_str_truthy new_name then
    t' <- lift (sql_update new_name None old_name t) ;; set_db t'
  else if opt_num_truthy new_price then
    t' <- lift (sql_update None new_price old_name t) ;; set_db t'
  else ret tt.

(** [Database.update_schema].  [CREATE TABLE cart_new] fails when the table
    exists; it runs before the [sqlite3] module opens a transaction, so the
    rollback of a failed copy leaves the empty [cart_new] behind. *)
Definition update_schema (current_version : Z) (s : store) : outcome unit * store :=
  if current_version <? 1 then
    if st_cart_new s then (Raise OperationalError, s)
    else
      match copy_rows (raw_rows (st_cart s)) [] with
      | Ok t => (Ok tt, mkStore (Current t) false (st_version s ++ [1]))
      | Raise e => (Raise e, mkStore (st_cart s) true (st_version s))
      end
  else (Ok tt, s).

(** [SELECT version FROM schema_version ORDER BY version DESC LIMIT 1], 0
    when there is no row. *)
Definition current_version (s : store) : Z :=
  match st_version s with
  | [] => 0
  | v :: vs => fold_right Z.max v vs
  end.

(** [Database.ensure_database_version] *)
Definition ensure_database_version (s : store) : outcome unit * store :=
  update_schema (current_version s) s.

End Database.

(** ** [api.py]: class [ShoppingCart] *)

Module ShoppingCart.

(** A row of [SELECT id, item, price FROM cart] as a dict. *)
Definition item_of_row (r : row) : Item :=
  mkItem (Some (row_id r)) (row_item r) (NFloat (row_price r)).

(** [ShoppingCart.get_all_items] *)
Definition get_all_items : M (list Item) :=
  t <- get_db ;; ret (map item_of_row t).

(** [ShoppingCart.__init__] over a store whose [Database] constructor has
    returned with the table [t]: [self.items] is read from the store. *)
Definition init (t : table) (f : filesystem) : state :=
  mkState (map item_of_row t) t
          [(INFO, MsgDbInitialized); (INFO, MsgCartInitialized)] f.

(** [item_data["id"] = item_id] on the dict appended at position [k]. *)
Definition set_id_at (k : nat) (i : Z) (l : list Item) : list Item :=
  alter (fun d => mkItem (Some i) (item_name d) (item_price d)) k l.

(** [ShoppingCart.add_item] *)
Definition add_item (item price : pyval) : M Z :=
  if negb (isinstance_str item) || negb (isinstance_int_float price) then
    raise ValueError
  else
    match as_str item, as_num price with
    | Some name, Some p =>
        l <- get_items ;;
        set_items (l ++ [mkItem None name p]) ;;;
        item_id <- Database.add_item name p ;;
        l' <- get_items ;;
        set_items (set_id_at (length l) item_id l') ;;;
        shown <- lift (py_float p) ;;
        logging INFO (MsgCartAdded name item_id shown) ;;;
        ret item_id
    | _, _ => raise ValueError
    end.

(** The loop [for i in self.items: if i["item"] == name: ...; break]: the
    position and the value of the first entry it stops at. *)
Fixpoint first_match (name : string) (l : list Item) : option (nat * Item) :=
  match l with
  | [] => None
  | i :: rest =>
      if String.eqb (item_name i) name then Some (O, i)
      else match first_match name rest with
           | Some (k, j) => Some (S k, j)
           | None => None
           end
  end.

(** [d1 == d2] on entries: same keys, equal values. *)
Definition item_eq (x y : Item) : bool :=
  match item_id x, item_id y with
  | Some a, Some b => a =? b
  | None, None => true
  | _, _ => false
  end
  && String.eqb (item_name x) (item_name y)
  && num_eq (item_price x) (item_price y).

(** [l.remove(x)] where [x] is the object at position [k] of [l]: the first
    entry that is [x] or equals [x] goes. *)
Fixpoint py_list_remove (k : nat) (x : Item) (l : list Item) : list Item :=
  match l with
  | [] => []
  | y :: rest =>
      match k with
      | O => rest
      | S k' => if item_eq y x then rest else y :: py_list_remove k' x rest
      end
  end.

(** [ShoppingCart.remove_item] *)
Definition remove_item (item : string) : M unit :=
  l <- get_items ;;
  match first_match item l with
  | Some (k, i) =>
      set_items (py_list_remove k i l) ;;;
      logging INFO (MsgCartRemoved item)
  | None => ret tt
  end ;;;
  Database.remove_item item.

(** [ShoppingCart.get_item] *)
Definition get_item (name : string) : M (option Item) :=
  l <- get_items ;;
  ret (match first_match name l with
       | Some (_, i) => Some i
       | None => None
       end).

(** [ShoppingCart.get_count] *)
Definition get_count : M Z :=
  l <- get_items ;; ret (Z.of_nat (length l)).

(** [ShoppingCart.get_total_price] *)
Definition get_total_price : M pynum :=
  l <- get_items ;; lift (py_sum (map item_price l)).

(** The loop of [update_item]: the first entry named [old_name] gets the new
    values that are not [None], the loop stops there. *)
Fixpoint update_first (old_name : string) (new_name : option string)
  (new_price : option pynum) (l : list Item) : list Item :=
  match l with
  | [] => []
  | i :: rest =>
      if String.eqb (item_name i) old_name then
        mkItem (item_id i) (default (item_name i) new_name)
               (default (item_price i) new_price)
        :: rest
      else i :: update_first old_name new_name new_price rest
  end.

(** [ShoppingCart.update_item] *)
Definition update_item (old_name : string) (new_name : option string)
  (new_price : option pynum) : M unit :=
  match new_name, new_price with
  | None, None => logging WARNING MsgNoUpdates
  | _, _ =>
      l <- get_items ;;
      set_items (update_first old_name new_name new_price l) ;;;
      result <- Database.update_item old_name new_name new_price ;;
      logging INFO
        (MsgCartUpdated old_name
           (if opt_str_truthy new_name then default old_name new_name else old_name)
           (if opt_num_truthy new_price then new_price else None)) ;;;
      ret result
  end.

(** [ShoppingCart.refresh_items] *)
Definition refresh_items : M unit :=
  l <- get_all_items ;; set_items l.

(** One turn of the loop of [export_shopping_list]: the f-string renders the
    price, then [file.write] encodes the line (the file is taken to be opened
    in UTF-8). *)
Definition text_line (i : Item) : outcome (string * pynum) :=
  if negb (num_renders (item_price i)) then Raise ValueError
  else if negb (utf8_encodable (item_name i)) then Raise UnicodeEncodeError
  else Ok (item_name i, item_price i).

(** The lines written until the loop ends or an entry fails, with that
    failure. *)
Fixpoint text_lines (l : list Item) : list (string * pynum) * option exn :=
  match l with
  | [] => ([], None)
  | i :: rest =>
      match text_line i with
      | Raise e => ([], Some e)
      | Ok line => (line :: fst (text_lines rest), snd (text_lines rest))
      end
  end.

(** [ShoppingCart.export_shopping_list] *)
Definition export_shopping_list (filename : string) : M unit :=
  open_w filename ;;;
  l <- get_items ;;
  write_close filename (match fst (text_lines l) with [] => true | _ => false end)
    (snd (text_lines l)) (TextList (fst (text_lines l))) ;;;
  logging INFO (MsgListExported filename).

(** The failure of [json.dump(self.items, f)], if any: names are written
    escaped, so only a price can fail to render; the opening bracket has been
    handed to the file by then. *)
Definition json_failure (l : list Item) : option exn :=
  if forallb (fun i => num_renders (item_price i)) l then None else Some ValueError.

(** [ShoppingCart.export_cart_to_json] *)
Definition export_cart_to_json (filename : string) : M unit :=
  try_except
    (open_w filename ;;;
     l <- get_items ;;
     write_close filename false (json_failure l) (JsonDump l) ;;;
     logging INFO (MsgCartExported filename))
    is_FileNotFoundError
    (logging ERROR (MsgExportFailed filename)).

End ShoppingCart.

(** * Part 2: scenarios and vocabulary of the statements *)

(** A database file that did not exist before [sqlite3.connect]. *)
Definition fresh_store : store := mkStore (Legacy []) false [].

(** A file system on which every path can be opened and written. *)
Definition no_files : filesystem := mkFs ∅ ∅ ∅.

(** The cart of the worked example: nothing in memory, nothing in the store. *)
Definition empty_cart : state := ShoppingCart.init [] no_files.

Definition cart_with_apple : state :=
  snd (ShoppingCart.add_item (PyStr "Apple") (PyFloat 1.2) empty_cart).
Definition cart_with_apple_bread : state :=
  snd (ShoppingCart.add_item (PyStr "Bread") (PyFloat 2.5) cart_with_apple).
Definition cart_with_bread : state :=
  snd (ShoppingCart.remove_item "Apple" cart_with_apple_bread).

(** A cart constructed over a store that holds one "Apple". *)
Definition apple_row : row := Row 1 "Apple" 1.2.
Definition one_apple : state := ShoppingCart.init [apple_row] no_files.

(** No entry of the in-memory list carries [name]. *)
Definition absent (name : string) (l : list Item) : Prop :=
  Forall (fun i => item_name i <> name) l.

(** Adding a list of (name, price) pairs, one call of [add_item] after the
    other. *)
Fixpoint add_all (adds : list (string * pynum)) : M unit :=
  match adds with
  | [] => ret tt
  | (name, p) :: rest =>
      ShoppingCart.add_item (PyStr name) (num_to_pyval p) ;;; add_all rest
  end.

(** The error [e] is raised while [filename] is opened or written. *)
Definition io_error (filename : string) (s : state) (e : exn) : Prop :=
  open_fault (fs s) !! filename = Some e
  \/ (open_fault (fs s) !! filename = None /\ write_fault (fs s) !! filename = Some e).

(** A cart whose export target lies in a directory that does not exist, and
    one whose export target may not be written. *)
Definition missing_directory : state :=
  ShoppingCart.init [] (mkFs {[ "out/list.txt" := FileNotFoundError ]} ∅ ∅).
Definition read_only_directory : state :=
  ShoppingCart.init [] (mkFs {[ "cart.json" := PermissionError ]} ∅ ∅).

(** The ids 1, 2, ..., n. *)
Definition ids_upto (n : nat) : list Z := map Z.of_nat (seq 1 n).

Definition not_null (r : raw_row) : Prop :=
  raw_item r <> None /\ raw_price r <> None.

(** The item and price columns of a row, before and after the migration. *)
Definition raw_columns (r : raw_row) : option string * option float :=
  (raw_item r, raw_price r).
Definition columns (r : row) : option string * option float :=
  (Some (row_item r), Some (row_price r)).

(** A table of the old schema from which the rows 1, 3 and 4 were deleted. *)
Definition legacy_after_deletions : store :=
  mkStore (Legacy [RawRow 2 (Some "Bread") (Some 2.5%float);
                   RawRow 5 (Some "Milk") (Some 0.99%float)]) false [].

(** ** Vocabulary of the further properties *)

(** The in-memory list is exactly what a full read of the table gives. *)
Definition synced (s : state) : Prop :=
  items s = map ShoppingCart.item_of_row (db s).

(** Number of in-memory entries, and of rows, with a given name. *)
Definition occurrences (name : string) (l : list Item) : nat :=
  length (List.filter (fun i => String.eqb (item_name i) name) l).
Definition row_occurrences (name : string) (t : table) : nat :=
  length (List.filter (matches name) t).

(** The list without its first entry named [name]. *)
Fixpoint remove_first (name : string) (l : list Item) : list Item :=
  match l with
  | [] => []
  | i :: rest =>
      if String.eqb (item_name i) name then rest else i :: remove_first name rest
  end.

(** An optional argument as the branches of [Database.update_item] see it: a
    value that is false counts as not given. *)
Definition effective_name (o : option string) : option string :=
  if opt_str_truthy o then o else None.
Definition effective_price (o : option pynum) : option pynum :=
  if opt_num_truthy o then o else None.

(** The rows of a table after [UPDATE ... WHERE item = old_name] has set the
    given columns. *)
Definition updated_rows (old_name : string) (new_name : option string)
  (new_price : option float) (t : table) : table :=
  map (fun r => if matches old_name r then set_row new_name new_price r else r) t.

(** What [Database.update_item] asks of the store for the values that count as
    given: one [UPDATE], or nothing at all when neither counts. *)
Definition update_statement (new_name : option string) (new_price : option pynum)
  (old_name : string) (t : table) : outcome table :=
  match new_name, new_price with
  | None, None => Ok t
  | _, _ => sql_update new_name new_price old_name t
  end.



(** A row of the old schema with a NULL in a column the new schema declares
    NOT NULL. *)
Definition has_null (r : raw_row) : Prop := raw_item r = None \/ raw_price r = None.

(** The row ids of a table. *)
Definition row_ids (t : table) : list Z := map row_id t.

(** ** The sum of prices, said without [+] of Python

    The nearest binary64 of an integer (ties to even) and whether it is
    finite; the binary64 a price counts as in a sum of [float]s; the integer
    an [int] or [bool] price counts as in a sum of integers. *)
Definition binary64_of_Z (z : Z) : float :=
  SF2Prim (binary_normalize prec emax z 0 false).

Definition rounds_finite (z : Z) : bool :=
  match binary_normalize prec emax z 0 false with
  | S754_infinity _ => false
  | _ => true
  end.

Definition binary64 (p : pynum) : float :=
  match p with
  | NFloat f => f
  | NInt z => binary64_of_Z z
  | NBool b => if b then 1%float else 0%float
  end.

Definition converts (p : pynum) : bool :=
  match p with
  | NInt z => rounds_finite z
  | _ => true
  end.

Definition is_float (p : pynum) : bool :=
  match p with NFloat _ => true | _ => false end.

Definition exact_value (p : pynum) : Z :=
  match p with
  | NInt z => z
  | NBool b => if b then 1 else 0
  | NFloat _ => 0
  end.

(** The prices of the in-memory entries, in list order. *)
Definition prices (s : state) : list pynum := map item_price (items s).

(** * Part 3: properties *)

(** Unfolding of the monadic plumbing. *)
Ltac run_m :=
  unfold bind, ret, raise, lift, try_except, get_items, set_items, get_db,
    set_db, get_fs, set_fs, logging in *; simpl in *.

(** ** Validation in [add_item] *)

Lemma isinstance_str_spec (v : pyval) :
  isinstance_str v = true <-> exists s, v = PyStr s.
Proof.
  split.
  - destruct v; simpl; try discriminate. intros _. eauto.
  - intros [s' ->]. reflexivity.
Qed.

Lemma isinstance_int_float_spec (v : pyval) :
  isinstance_int_float v = true <-> exists n, v = num_to_pyval n.
Proof.
  split.
  - destruct v; simpl; try discriminate; intros _;
      [exists (NBool b) | exists (NInt z) | exists (NFloat f)]; reflexivity.
  - intros [n ->]. destruct n; reflexivity.
Qed.

Lemma as_num_to_pyval (p : pynum) : as_num (num_to_pyval p) = Some p.
Proof. destruct p; reflexivity. Qed.

(** The price never makes the store, or the conversion for the log, raise a
    [ValueError]. *)
Lemma stored_price_not_ValueError (p : pynum) (e : exn) :
  stored_price p = Raise e -> is_ValueError e = false.
Proof.
  unfold stored_price, bind_num. destruct p as [b|z|f]; simpl.
  - discriminate.
  - destruct (_ && _); simpl; [discriminate|]. intros H. injection H as <-. reflexivity.
  - destruct (is_nan f); simpl; [|discriminate]. intros H. injection H as <-. reflexivity.
Qed.

Lemma py_float_not_ValueError (p : pynum) (e : exn) :
  py_float p = Raise e -> is_ValueError e = false.
Proof.
  destruct p as [b|z|f]; simpl; try discriminate.
  destruct (Z_to_spec_float z); try discriminate.
  intros H. injection H as <-. reflexivity.
Qed.

(** The insert raises a [ValueError] exactly for a name that cannot be
    encoded, and then before anything else. *)
Lemma sql_insert_unencodable (name : string) (p : pynum) (t : table) :
  utf8_encodable name = false -> sql_insert name p t = Raise UnicodeEncodeError.
Proof. intros H. unfold sql_insert, bind_text. rewrite H. reflexivity. Qed.

Lemma sql_insert_ValueError (name : string) (p : pynum) (t : table) (e : exn) :
  sql_insert name p t = Raise e -> is_ValueError e = true ->
  utf8_encodable name = false.
Proof.
  unfold sql_insert, bind_text. destruct (utf8_encodable name); [|reflexivity].
  destruct (stored_price p) as [f|e'] eqn:E; [discriminate|].
  intros H. injection H as <-. intros He.
  rewrite (stored_price_not_ValueError p e' E) in He. discriminate.
Qed.

(** [add_item] on arguments that pass the validation, step by step. *)
Lemma add_item_valid (name : string) (p : pynum) (s : state) :
  ShoppingCart.add_item (PyStr name) (num_to_pyval p) s =
  let s1 := mkState (items s ++ [mkItem None name p]) (db s) (log s) (fs s) in
  match sql_insert name p (db s) with
  | Raise e => (Raise e, s1)
  | Ok (i, t) =>
      let s2 := mkState (ShoppingCart.set_id_at (length (items s)) i (items s1)) t
                        (log s ++ [(INFO, MsgDbAdded name i p)]) (fs s) in
      match py_float p with
      | Raise e => (Raise e, s2)
      | Ok shown =>
          (Ok i, mkState (items s2) t (log s2 ++ [(INFO, MsgCartAdded name i shown)]) (fs s))
      end
  end.
Proof.
  unfold ShoppingCart.add_item, Database.add_item.
  replace (isinstance_int_float (num_to_pyval p)) with true by (destruct p; reflexivity).
  rewrite as_num_to_pyval. run_m.
  destruct (sql_insert name p (db s)) as [[i t]|e]; simpl; [|reflexivity].
  destruct (py_float p); reflexivity.
Qed.

(** The backfill of the id touches the appended entry only. *)
Lemma set_id_at_appended (l : list Item) (i : Z) (name : string) (p : pynum) :
  ShoppingCart.set_id_at (length l) i (l ++ [mkItem None name p])
  = l ++ [mkItem (Some i) name p].
Proof.
  unfold ShoppingCart.set_id_at. induction l as [|x l IH]; simpl; [reflexivity|].
  f_equal. exact IH.
Qed.

(** Whatever its outcome, [add_item] on valid arguments leaves exactly one
    more entry at the end of the in-memory list. *)
Lemma add_item_items (name : string) (p : pynum) (s : state) :
  exists oid,
    items (snd (ShoppingCart.add_item (PyStr name) (num_to_pyval p) s))
    = items s ++ [mkItem oid name p]
    /\ (forall id, fst (ShoppingCart.add_item (PyStr name) (num_to_pyval p) s) = Ok id ->
                   oid = Some id).
Proof.
  rewrite add_item_valid. cbv zeta.
  destruct (sql_insert name p (db s)) as [[id t]|e].
  - exists (Some id). cbn [items]. rewrite set_id_at_appended.
    destruct (py_float p) as [shown|e]; simpl; split; auto; intros id' H;
      inversion H; reflexivity.
  - exists None. simpl. split; auto. intros id' H. discriminate.
Qed.

(** C4 as stated fails: for a name that is a [str] with a lone surrogate and
    a [float] price, [add_item] raises a [ValueError] (the subclass
    [UnicodeEncodeError], from the store insert) although both arguments have
    the right types, and the entry is in the in-memory list by then. *)
Lemma add_item_unencodable_name :
  ~ (forall (item price : pyval) (s : state),
        ((exists e, fst (ShoppingCart.add_item item price s) = Raise e
                    /\ is_ValueError e = true)
         <-> (~ (exists name, item = PyStr name))
             \/ (~ (exists p, price = num_to_pyval p)))
        /\ ((exists e, fst (ShoppingCart.add_item item price s) = Raise e
                       /\ is_ValueError e = true)
            -> items (snd (ShoppingCart.add_item item price s)) = items s)).
Proof.
  intros H.
  destruct (H (PyStr lone_surrogate) (PyFloat 1) empty_cart) as [[Hto _] _].
  destruct Hto as [Hn|Hn].
  - exists UnicodeEncodeError. split; reflexivity.
  - apply Hn. exists lone_surrogate. reflexivity.
  - apply Hn. exists (NFloat 1). reflexivity.
Qed.

(** C4, amended: [add_item] raises a [ValueError] (the class or a subclass)
    exactly when [item] is not a [str], or [price] is not an [int] or [float]
    ([bool] included, as a subclass of [int]), or [item] is a [str] that cannot
    be encoded as UTF-8.  In the first two cases it is the [ValueError] of the
    guard: nothing has happened yet, and the in-memory list, the store and the
    log are as they were.  In the third it is the [UnicodeEncodeError] of the
    store insert, raised after the entry was appended. *)
Theorem add_item_ValueError_cases (item price : pyval) (s : state) :
  ((exists e, fst (ShoppingCart.add_item item price s) = Raise e
              /\ is_ValueError e = true)
   <-> (~ (exists name, item = PyStr name))
       \/ (~ (exists p, price = num_to_pyval p))
       \/ (exists name, item = PyStr name /\ utf8_encodable name = false))
  /\ ((~ (exists name, item = PyStr name)) \/ (~ (exists p, price = num_to_pyval p)) ->
      ShoppingCart.add_item item price s = (Raise ValueError, s))
  /\ (forall name p, item = PyStr name -> price = num_to_pyval p ->
        utf8_encodable name = false ->
        ShoppingCart.add_item item price s
        = (Raise UnicodeEncodeError,
           mkState (items s ++ [mkItem None name p]) (db s) (log s) (fs s))).
Proof.
  assert (Hguard : (~ (exists name, item = PyStr name))
                   \/ (~ (exists p, price = num_to_pyval p)) ->
                   ShoppingCart.add_item item price s = (Raise ValueError, s)).
  { intros Hbad. unfold ShoppingCart.add_item.
    destruct (isinstance_str item) eqn:Hs; [|reflexivity].
    destruct (isinstance_int_float price) eqn:Hp; [|reflexivity].
    apply isinstance_str_spec in Hs. apply isinstance_int_float_spec in Hp.
    destruct Hbad as [Hbad|Hbad]; contradiction. }
  assert (Hstore : forall name p, item = PyStr name -> price = num_to_pyval p ->
                   utf8_encodable name = false ->
                   ShoppingCart.add_item item price s
                   = (Raise UnicodeEncodeError,
                      mkState (items s ++ [mkItem None name p]) (db s) (log s) (fs s))).
  { intros name p -> -> Hname. rewrite add_item_valid.
    rewrite (sql_insert_unencodable name p (db s) Hname). reflexivity. }
  split; [|split; [exact Hguard | exact Hstore]].
  split.
  - intros (e & He & Hv).
    destruct (isinstance_str item) eqn:Hs.
    + destruct (isinstance_int_float price) eqn:Hp.
      * apply isinstance_str_spec in Hs as [name ->].
        apply isinstance_int_float_spec in Hp as [p ->].
        right. right. exists name. split; [reflexivity|].
        rewrite add_item_valid in He. cbv zeta in He.
        destruct (sql_insert name p (db s)) as [[i t]|e'] eqn:E.
        -- destruct (py_float p) as [g|e'] eqn:F; [discriminate|].
           simpl in He. injection He as <-.
           rewrite (py_float_not_ValueError p e' F) in Hv. discriminate.
        -- simpl in He. injection He as <-.
           exact (sql_insert_ValueError name p (db s) e' E Hv).
      * right. left. intros Hex. apply isinstance_int_float_spec in Hex. congruence.
    + left. intros Hex. apply isinstance_str_spec in Hex. congruence.
  - intros [Hbad | [Hbad | (name & -> & Hname)]].
    + exists ValueError. rewrite Hguard by (left; exact Hbad). split; reflexivity.
    + exists ValueError. rewrite Hguard by (right; exact Hbad). split; reflexivity.
    + destruct (isinstance_int_float price) eqn:Hp.
      * apply isinstance_int_float_spec in Hp as [p ->].
        exists UnicodeEncodeError. rewrite (Hstore name p) by auto. split; reflexivity.
      * exists ValueError. rewrite Hguard; [split; reflexivity|].
        right. intros Hex. apply isinstance_int_float_spec in Hex. congruence.
Qed.

Lemma add_item_ValueError_cases_witness :
  ShoppingCart.add_item (PyStr "Apple") PyNone empty_cart = (Raise ValueError, empty_cart)
  /\ ShoppingCart.add_item (PyStr lone_surrogate) (PyFloat 1) empty_cart
     = (Raise UnicodeEncodeError,
        mkState (items empty_cart ++ [mkItem None lone_surrogate (NFloat 1)])
                (db empty_cart) (log empty_cart) (fs empty_cart)).
Proof.
  destruct (add_item_ValueError_cases (PyStr "Apple") PyNone empty_cart)
    as (_ & Hguard & _).
  destruct (add_item_ValueError_cases (PyStr lone_surrogate) (PyFloat 1) empty_cart)
    as (_ & _ & Hstore).
  split.
  - apply Hguard. right. intros [[] Hp]; discriminate.
  - apply (Hstore lone_surrogate (NFloat 1)); reflexivity.
Defined.

(** ** [update_item] without updates *)

(** C8: [update_item] with neither a new name nor a new price returns at once:
    the in-memory list and the store are untouched, one warning is logged. *)
Theorem update_item_nothing_given (old_name : string) (s : state) :
  ShoppingCart.update_item old_name None None s =
  (Ok tt, mkState (items s) (db s) (log s ++ [(WARNING, MsgNoUpdates)]) (fs s)).
Proof. reflexivity. Qed.

(** ** [add_item] when the store insert raises *)

(** The outcome of the store insert depends on the table only. *)
Lemma db_add_item_outcome (name : string) (p : pynum) (s : state) :
  fst (Database.add_item name p s) =
  match sql_insert name p (db s) with Ok r => Ok (fst r) | Raise e => Raise e end.
Proof.
  unfold Database.add_item. run_m. destruct (sql_insert name p (db s)); reflexivity.
Qed.

(** C9: [add_item] appends the entry before it inserts into the store; when
    the insert raises, the exception leaves [add_item] with the entry in the
    in-memory list, without an id, and the store as it was. *)
Theorem add_item_insert_raises (name : string) (p : pynum) (e : exn) (s : state) :
  fst (Database.add_item name p s) = Raise e ->
  ShoppingCart.add_item (PyStr name) (num_to_pyval p) s =
  (Raise e, mkState (items s ++ [mkItem None name p]) (db s) (log s) (fs s)).
Proof.
  rewrite db_add_item_outcome, add_item_valid.
  destruct (sql_insert name p (db s)) as [[i t]|e']; simpl; congruence.
Qed.

Lemma add_item_insert_raises_witness :
  fst (Database.add_item "Melon" (NInt (2 ^ 63)) empty_cart) = Raise OverflowError
  /\ ShoppingCart.add_item (PyStr "Melon") (PyInt (2 ^ 63)) empty_cart =
     (Raise OverflowError,
      mkState [mkItem None "Melon" (NInt (2 ^ 63))] [] (log empty_cart) no_files).
Proof.
  split; [reflexivity|].
  apply (add_item_insert_raises "Melon" (NInt (2 ^ 63)) OverflowError empty_cart).
  reflexivity.
Defined.

(** A NaN price is bound as NULL and rejected by NOT NULL, with the same
    effect on the in-memory list. *)
Example add_item_nan_price :
  ShoppingCart.add_item (PyStr "Melon") (PyFloat nan) empty_cart =
  (Raise IntegrityError,
   mkState [mkItem None "Melon" (NFloat nan)] [] (log empty_cart) no_files).
Proof. reflexivity. Qed.

(** ** The worked example *)

(** C6: from an empty cart over an empty store, [add_item("Apple", 1.20)]
    returns 1, [add_item("Bread", 2.50)] returns 2, the count is 2 and the total
    is the binary64 value 3.7; after [remove_item("Apple")], [get_item("Apple")]
    is [None] and the total is 2.5. *)
Theorem apple_bread_example :
  fst (ShoppingCart.add_item (PyStr "Apple") (PyFloat 1.2) empty_cart) = Ok 1
  /\ fst (ShoppingCart.add_item (PyStr "Bread") (PyFloat 2.5) cart_with_apple) = Ok 2
  /\ fst (ShoppingCart.get_count cart_with_apple_bread) = Ok 2
  /\ fst (ShoppingCart.get_total_price cart_with_apple_bread) = Ok (NFloat 3.7)
  /\ fst (ShoppingCart.remove_item "Apple" cart_with_apple_bread) = Ok tt
  /\ fst (ShoppingCart.get_item "Apple" cart_with_bread) = Ok None
  /\ fst (ShoppingCart.get_total_price cart_with_bread) = Ok (NFloat 2.5).
Proof. repeat split; vm_compute; reflexivity. Qed.

(** The empty store of the example is what the constructor of [Database]
    makes of a new file. *)
Lemma fresh_store_migrates :
  Database.ensure_database_version fresh_store
  = (Ok tt, mkStore (Current []) false [1]).
Proof. reflexivity. Qed.

(** ** [Database.update_item] and values that are false *)

(** C1, at the failing input: a new price of 0 is given and a row matches, yet
    [Database.update_item] leaves the row's price at 1.2, while
    [ShoppingCart.update_item], which tests [is not None], sets the in-memory
    price to 0; an empty new name is dropped in the same way. *)
Theorem db_update_item_zero_price_ignored :
  db (snd (Database.update_item "Apple" None (Some (NInt 0)) one_apple)) = [apple_row]
  /\ db (snd (Database.update_item "Apple" (Some EmptyString) None one_apple)) = [apple_row]
  /\ db (snd (Database.update_item "Apple" (Some "Pear") (Some (NInt 0)) one_apple))
     = [Row 1 "Pear" 1.2]
  /\ items (snd (ShoppingCart.update_item "Apple" None (Some (NInt 0)) one_apple))
     = [mkItem (Some 1) "Apple" (NInt 0)]
  /\ db (snd (ShoppingCart.update_item "Apple" None (Some (NInt 0)) one_apple))
     = [apple_row].
Proof. repeat split; vm_compute; reflexivity. Qed.

(** Whatever is false as a truth value is treated as not given. *)
Lemma db_update_item_falsy (old_name : string) (new_name : option string)
  (new_price : option pynum) (s : state) :
  opt_str_truthy new_name = false -> opt_num_truthy new_price = false ->
  Database.update_item old_name new_name new_price s = (Ok tt, s).
Proof.
  intros Hn Hp. unfold Database.update_item. run_m. rewrite Hn, Hp. reflexivity.
Qed.

(** A price that is true as a truth value does reach the matching rows. *)
Example db_update_item_nonzero_price :
  db (snd (Database.update_item "Apple" None (Some (NFloat 2.5)) one_apple))
  = [Row 1 "Apple" 2.5].
Proof. reflexivity. Qed.

(** ** The first match by name *)

Section FirstMatch.

Variable name : string.

Lemma first_match_None (l : list Item) :
  ShoppingCart.first_match name l = None <-> absent name l.
Proof.
  unfold absent. induction l as [|i l IH]; simpl.
  - split; auto.
  - destruct (String.eqb_spec (item_name i) name) as [E|E].
    + split; [discriminate|]. intros H. inversion H; subst. contradiction.
    + destruct (ShoppingCart.first_match name l) as [[k j]|].
      * split; [discriminate|]. intros H. inversion H as [|? ? _ Hl]; subst.
        apply IH in Hl. discriminate.
      * split; intros _; [|reflexivity]. constructor; [exact E|]. apply IH. reflexivity.
Qed.

Lemma first_match_Some (l : list Item) (k : nat) (x : Item) :
  ShoppingCart.first_match name l = Some (k, x) ->
  exists l1 l2,
    l = l1 ++ x :: l2 /\ length l1 = k /\ item_name x = name /\ absent name l1.
Proof.
  unfold absent. revert k. induction l as [|i l IH]; simpl; intros k H; [discriminate|].
  destruct (String.eqb_spec (item_name i) name) as [E|E].
  - inversion H; subst. exists [], l. repeat split; auto.
  - destruct (ShoppingCart.first_match name l) as [[k' j]|]; [|discriminate].
    inversion H; subst. destruct (IH k' eq_refl) as (l1 & l2 & -> & Hlen & Hx & Hall).
    exists (i :: l1), l2. repeat split; simpl; auto.
Qed.

Lemma first_match_app (l : list Item) (x : Item) :
  absent name l -> item_name x = name ->
  ShoppingCart.first_match name (l ++ [x]) = Some (length l, x).
Proof.
  intros Hall Hx. induction Hall as [|y l Hy _ IH]; simpl.
  - rewrite <- Hx, String.eqb_refl. reflexivity.
  - destruct (String.eqb_spec (item_name y) name); [contradiction|].
    rewrite IH. reflexivity.
Qed.

(** [self.items.remove(i)] takes out the entry the loop stopped at: an entry
    before it that compared equal would have had the same name. *)
Lemma py_list_remove_first_match (l1 l2 : list Item) (x : Item) :
  item_name x = name -> absent name l1 ->
  ShoppingCart.py_list_remove (length l1) x (l1 ++ x :: l2) = l1 ++ l2.
Proof.
  intros Hx. induction 1 as [|y l1 Hy _ IH]; simpl; [reflexivity|].
  destruct (ShoppingCart.item_eq y x) eqn:E.
  - unfold ShoppingCart.item_eq in E.
    apply andb_prop in E as [E _]. apply andb_prop in E as [_ E].
    apply String.eqb_eq in E. congruence.
  - f_equal. exact IH.
Qed.


End FirstMatch.

(** ** Removal *)


(** A name with a lone surrogate, left in the list by a failed [add_item]:
    the entry goes, then the [DELETE] raises. *)
Example remove_item_unencodable_name :
  let s := snd (ShoppingCart.add_item (PyStr lone_surrogate) (PyFloat 1) cart_with_apple) in
  items s = items cart_with_apple ++ [mkItem None lone_surrogate (NFloat 1)]
  /\ ShoppingCart.remove_item lone_surrogate s
     = (Raise UnicodeEncodeError,
        mkState (items cart_with_apple) (db cart_with_apple)
                (log cart_with_apple ++ [(INFO, MsgCartRemoved lone_surrogate)]) no_files).
Proof. split; reflexivity. Qed.

(** With two entries and two rows of one name, the list loses one entry and
    the table both rows. *)
Example remove_item_duplicate_name :
  let s := ShoppingCart.init [Row 1 "Apple" 1.2; Row 2 "Apple" 1.5] no_files in
  items (snd (ShoppingCart.remove_item "Apple" s)) = [mkItem (Some 2) "Apple" (NFloat 1.5)]
  /\ db (snd (ShoppingCart.remove_item "Apple" s)) = [].
Proof. split; reflexivity. Qed.

(** ** [add_item] followed by [get_item] *)

(** What [get_item] returns is decided by the in-memory list alone. *)
Lemma get_item_outcome (name : string) (s : state) :
  fst (ShoppingCart.get_item name s) =
  Ok (match ShoppingCart.first_match name (items s) with
      | Some (_, i) => Some i
      | None => None
      end).
Proof. reflexivity. Qed.

(** The first match always carries the name that was asked for. *)
Lemma get_item_name (name : string) (s : state) (i : Item) :
  fst (ShoppingCart.get_item name s) = Ok (Some i) -> item_name i = name.
Proof.
  rewrite get_item_outcome.
  destruct (ShoppingCart.first_match name (items s)) as [[k x]|] eqn:E; [|discriminate].
  intros H. inversion H; subst.
  apply first_match_Some in E as (_ & _ & _ & _ & Hx & _). exact Hx.
Qed.

(** C5 as stated fails: in a cart that already holds an "Apple", adding
    "Apple" at price 2 and asking for "Apple" returns the older entry, whose
    price is the float 1.2. *)
Lemma add_then_get_older_entry :
  ~ (forall (name : string) (p : pynum) (s : state),
        exists i,
          fst (ShoppingCart.get_item name
                 (snd (ShoppingCart.add_item (PyStr name) (num_to_pyval p) s)))
          = Ok (Some i)
          /\ item_name i = name /\ item_price i = p).
Proof.
  intros H. destruct (H "Apple" (NInt 2) one_apple) as (i & Hget & _ & Hp).
  vm_compute in Hget. inversion Hget; subst. discriminate Hp.
Qed.

(** C5, amended: when no in-memory entry has the name yet, [add_item] followed
    by [get_item] returns an entry with the added name and price; it carries
    the id [add_item] returned.  (This holds even when the store insert
    raises: the entry is in the list by then.) *)
Theorem add_then_get_fresh_name (name : string) (p : pynum) (s : state) :
  absent name (items s) ->
  exists i,
    fst (ShoppingCart.get_item name
           (snd (ShoppingCart.add_item (PyStr name) (num_to_pyval p) s)))
    = Ok (Some i)
    /\ item_name i = name /\ item_price i = p
    /\ (forall id, fst (ShoppingCart.add_item (PyStr name) (num_to_pyval p) s) = Ok id ->
                   item_id i = Some id).
Proof.
  intros Hfresh.
  destruct (add_item_items name p s) as (oid & Hitems & Hid).
  exists (mkItem oid name p).
  rewrite get_item_outcome, Hitems, first_match_app by auto.
  repeat split; auto.
Qed.

Lemma add_then_get_fresh_name_witness :
  exists i,
    fst (ShoppingCart.get_item "Bread"
           (snd (ShoppingCart.add_item (PyStr "Bread") (PyFloat 2.5) one_apple)))
    = Ok (Some i)
    /\ item_name i = "Bread" /\ item_price i = NFloat 2.5
    /\ (forall id, fst (ShoppingCart.add_item (PyStr "Bread") (PyFloat 2.5) one_apple)
                   = Ok id -> item_id i = Some id).
Proof.
  apply (add_then_get_fresh_name "Bread" (NFloat 2.5) one_apple).
  repeat constructor. simpl. discriminate.
Defined.

(** ** The total *)

Lemma py_sum_from_snoc (acc : pynum) (xs : list pynum) (x : pynum) :
  py_sum_from acc (xs ++ [x]) =
  match py_sum_from acc xs with Ok a => py_add a x | Raise e => Raise e end.
Proof.
  revert acc. induction xs as [|y xs IH]; intros acc; simpl.
  - destruct (py_add acc x); reflexivity.
  - destruct (py_add acc y); [apply IH | reflexivity].
Qed.

Lemma py_sum_from_ints (acc : Z) (zs : list Z) :
  py_sum_from (NInt acc) (map NInt zs) = Ok (NInt (acc + foldr Z.add 0 zs)).
Proof.
  revert acc. induction zs as [|z zs IH]; intros acc; simpl.
  - f_equal. f_equal. lia.
  - rewrite IH. f_equal. f_equal. lia.
Qed.

Lemma py_sum_from_floats (acc : float) (fs : list float) :
  py_sum_from (NFloat acc) (map NFloat fs) = Ok (NFloat (fold_left PrimFloat.add fs acc)).
Proof.
  revert acc. induction fs as [|f fs IH]; intros acc; simpl; [reflexivity | apply IH].
Qed.

Lemma add_all_prices (adds : list (string * pynum)) (s s' : state) :
  add_all adds s = (Ok tt, s') ->
  map item_price (items s') = map item_price (items s) ++ map snd adds.
Proof.
  revert s. induction adds as [|[name p] adds IH]; intros s; simpl.
  - unfold ret. intros H. inversion H; subst. rewrite app_nil_r. reflexivity.
  - unfold bind.
    destruct (add_item_items name p s) as (oid & Hitems & _).
    destruct (ShoppingCart.add_item (PyStr name) (num_to_pyval p) s) as [[id|e] s1];
      [|discriminate].
    intros H. apply IH in H. rewrite H. simpl in Hitems. rewrite Hitems.
    rewrite map_app, <- app_assoc. reflexivity.
Qed.

Lemma py_sum_from_app (acc : pynum) (xs ys : list pynum) :
  py_sum_from acc (xs ++ ys) =
  match py_sum_from acc xs with Ok a => py_sum_from a ys | Raise e => Raise e end.
Proof.
  revert acc. induction xs as [|x xs IH]; intros acc; simpl; [reflexivity|].
  destruct (py_add acc x); [apply IH | reflexivity].
Qed.

(** [float(p)] is the nearest binary64, and fails exactly when that is
    infinite. *)
Lemma py_float_binary64 (p : pynum) :
  py_float p = if converts p then Ok (binary64 p) else Raise OverflowError.
Proof.
  destruct p as [b|z|f]; simpl.
  - destruct b; reflexivity.
  - unfold rounds_finite, binary64_of_Z, Z_to_spec_float.
    destruct (binary_normalize prec emax z 0 false); reflexivity.
  - reflexivity.
Qed.

(** A sum that has reached a [float] stays in binary64. *)
Lemma py_sum_from_float (acc : float) (ps : list pynum) :
  py_sum_from (NFloat acc) ps =
  if forallb converts ps
  then Ok (NFloat (fold_left (fun a p => (a + binary64 p)%float) ps acc))
  else Raise OverflowError.
Proof.
  revert acc. induction ps as [|p ps IH]; intros acc; simpl; [reflexivity|].
  rewrite py_float_binary64. destruct (converts p); simpl; [apply IH | reflexivity].
Qed.

(** A sum of [int]s and [bool]s is exact. *)
Lemma py_sum_from_integral (acc : Z) (ps : list pynum) :
  Forall (fun p => is_float p = false) ps ->
  py_sum_from (NInt acc) ps = Ok (NInt (acc + fold_right Z.add 0 (map exact_value ps))).
Proof.
  intros H. revert acc. induction H as [|p ps Hp _ IH]; intros acc; simpl.
  - f_equal. f_equal. lia.
  - destruct p as [b|z|f]; [| |discriminate]; simpl; rewrite IH; f_equal; f_equal;
      try destruct b; simpl; lia.
Qed.

(** C7: the total is Python's [sum] of the in-memory prices, left to right
    from the integer 0, and reading it changes nothing; one more entry adds its
    price to the total; the total is 0 for an empty list; after [add_item] has
    succeeded for prices p1..pn on an empty cart the in-memory prices are
    p1..pn and the total is their sum.  What that sum is, for every list of
    prices: while the prices are [int]s and [bool]s, the exact integer sum
    ([True] counts 1); from the first [float] on, the binary64 sum, each
    addition rounded to nearest, of the nearest binary64 of the integer reached
    so far, that [float], and the nearest binary64 of each later price,
    [OverflowError] when one of these integers is too large for a binary64.
    So the prices 5 and 1.5 give 6.5. *)
Theorem get_total_price_is_sum (adds : list (string * pynum)) (s s' : state) :
  items s = [] ->
  add_all adds s = (Ok tt, s') ->
  (forall st, ShoppingCart.get_total_price st = (py_sum (map item_price (items st)), st))
  /\ (forall st x, fst (ShoppingCart.get_total_price
                         (mkState (items st ++ [x]) (db st) (log st) (fs st)))
                   = match fst (ShoppingCart.get_total_price st) with
                     | Ok a => py_add a (item_price x)
                     | Raise e => Raise e
                     end)
  /\ fst (ShoppingCart.get_total_price s) = Ok (NInt 0)
  /\ fst (ShoppingCart.get_total_price s') = py_sum (map snd adds)
  /\ (forall zs, map snd adds = map NInt zs ->
                 fst (ShoppingCart.get_total_price s') = Ok (NInt (foldr Z.add 0 zs)))
  /\ (forall f fs, map snd adds = map NFloat (f :: fs) ->
                   fst (ShoppingCart.get_total_price s')
                   = Ok (NFloat (fold_left PrimFloat.add fs (0 + f)%float)))
  /\ prices s' = map snd adds
  /\ (forall st, Forall (fun p => is_float p = false) (prices st) ->
                 fst (ShoppingCart.get_total_price st)
                 = Ok (NInt (fold_right Z.add 0 (map exact_value (prices st)))))
  /\ (forall st pre f rest,
        prices st = pre ++ NFloat f :: rest ->
        Forall (fun p => is_float p = false) pre ->
        fst (ShoppingCart.get_total_price st)
        = if rounds_finite (fold_right Z.add 0 (map exact_value pre))
             && forallb converts rest
          then Ok (NFloat (fold_left (fun a p => (a + binary64 p)%float) rest
                             (PrimFloat.add
                                (binary64_of_Z (fold_right Z.add 0 (map exact_value pre)))
                                f)))
          else Raise OverflowError)
  /\ (forall st, prices st = [NInt 5; NFloat 1.5] ->
                 fst (ShoppingCart.get_total_price st) = Ok (NFloat 6.5))
  /\ (forall st, prices st = [NFloat 1.5; NBool true; NInt 2] ->
                 fst (ShoppingCart.get_total_price st) = Ok (NFloat 4.5))
  /\ (forall st, prices st = [NInt (2 ^ 53 + 1); NFloat 0.5] ->
                 fst (ShoppingCart.get_total_price st) = Ok (NFloat 9007199254740992))
  /\ (forall st, prices st = [NInt (2 ^ 1024); NFloat 1.5] ->
                 fst (ShoppingCart.get_total_price st) = Raise OverflowError).
Proof.
  intros Hempty Hadds.
  assert (Htotal : forall st, ShoppingCart.get_total_price st
                              = (py_sum (map item_price (items st)), st))
    by reflexivity.
  assert (Hfst : forall st, fst (ShoppingCart.get_total_price st) = py_sum (prices st))
    by reflexivity.
  assert (Hprices : prices s' = map snd adds).
  { unfold prices. rewrite (add_all_prices adds s s' Hadds), Hempty. reflexivity. }
  assert (Hs' : fst (ShoppingCart.get_total_price s') = py_sum (map snd adds)).
  { rewrite Hfst, Hprices. reflexivity. }
  split; [exact Htotal|]. split; [|split; [|split; [exact Hs'|split; [|split]]]].
  - intros st x. rewrite !Htotal. simpl. rewrite map_app. apply py_sum_from_snoc.
  - rewrite Htotal, Hempty. reflexivity.
  - intros zs Hzs. rewrite Hs', Hzs. unfold py_sum. rewrite py_sum_from_ints. reflexivity.
  - intros f fs Hfs. rewrite Hs', Hfs. unfold py_sum. simpl map.
    change (py_sum_from (NInt 0) (NFloat f :: map NFloat fs))
      with (py_sum_from (NFloat (0 + f)%float) (map NFloat fs)).
    apply py_sum_from_floats.
  - split; [exact Hprices|]. split; [|split].
    + intros st Hint. rewrite Hfst. unfold py_sum.
      rewrite py_sum_from_integral by exact Hint. reflexivity.
    + intros st pre f rest Hsplit Hint. rewrite Hfst, Hsplit. unfold py_sum.
      rewrite py_sum_from_app, py_sum_from_integral by exact Hint.
      cbn [py_sum_from py_add]. rewrite py_float_binary64. cbn [converts binary64].
      rewrite Z.add_0_l.
      destruct (rounds_finite (fold_right Z.add 0 (map exact_value pre))); simpl;
        [apply py_sum_from_float | reflexivity].
    + repeat split; intros st Hst; rewrite Hfst, Hst; vm_compute; reflexivity.
Qed.

Lemma get_total_price_is_sum_witness :
  fst (ShoppingCart.get_total_price cart_with_apple_bread)
  = py_sum [NFloat 1.2; NFloat 2.5]
  /\ fst (ShoppingCart.get_total_price empty_cart) = Ok (NInt 0)
  /\ prices cart_with_apple_bread = [NFloat 1.2; NFloat 2.5].
Proof.
  pose proof (get_total_price_is_sum
                [("Apple", NFloat 1.2); ("Bread", NFloat 2.5)]
                empty_cart cart_with_apple_bread eq_refl eq_refl)
    as (_ & _ & H0 & Hsum & _ & _ & Hprices & _).
  split; [exact Hsum | split; [exact H0 | exact Hprices]].
Defined.

(** ** Exports and I/O errors *)

(** C2 as stated fails: the plain-text export has no handler, so even a
    [FileNotFoundError] from [open] reaches the caller, unlogged; the JSON
    export handles [FileNotFoundError] only, so a [PermissionError] from [open]
    reaches the caller. *)
Lemma export_raises_io_error :
  io_error "out/list.txt" missing_directory FileNotFoundError
  /\ ShoppingCart.export_shopping_list "out/list.txt" missing_directory
     = (Raise FileNotFoundError, missing_directory)
  /\ io_error "cart.json" read_only_directory PermissionError
  /\ ShoppingCart.export_cart_to_json "cart.json" read_only_directory
     = (Raise PermissionError, read_only_directory).
Proof. repeat split; try (left; reflexivity); reflexivity. Qed.

(** C2, amended: a [FileNotFoundError] raised while the JSON export opens or
    writes its file is caught and logged as an error, and the export returns
    normally; the in-memory list and the store are as they were. *)
Theorem export_cart_to_json_catches_FileNotFoundError (filename : string) (s : state) :
  io_error filename s FileNotFoundError ->
  exists s',
    ShoppingCart.export_cart_to_json filename s = (Ok tt, s')
    /\ items s' = items s /\ db s' = db s
    /\ log s' = log s ++ [(ERROR, MsgExportFailed filename)].
Proof.
  intros Hio.
  unfold ShoppingCart.export_cart_to_json, try_except, open_w, write_close. run_m.
  destruct Hio as [Ho | [Ho Hw]]; rewrite Ho; simpl; [|rewrite Hw; simpl];
    eexists; repeat split.
Qed.

Lemma export_cart_to_json_catches_FileNotFoundError_witness :
  exists s',
    ShoppingCart.export_cart_to_json "out/list.txt" missing_directory = (Ok tt, s')
    /\ items s' = items missing_directory /\ db s' = db missing_directory
    /\ log s' = log missing_directory ++ [(ERROR, MsgExportFailed "out/list.txt")].
Proof.
  apply (export_cart_to_json_catches_FileNotFoundError "out/list.txt" missing_directory).
  left. reflexivity.
Defined.

(** Every other I/O error of the JSON export, and every I/O error raised by
    the plain-text export (which writes only when a line was rendered), reaches
    the caller, and nothing is logged. *)
Lemma export_io_error_propagates (filename : string) (s : state) (e : exn) :
  io_error filename s e ->
  (is_FileNotFoundError e = false ->
   exists s', ShoppingCart.export_cart_to_json filename s = (Raise e, s')
              /\ items s' = items s /\ db s' = db s /\ log s' = log s)
  /\ (open_fault (fs s) !! filename = Some e
      \/ fst (ShoppingCart.text_lines (items s)) <> [] ->
      exists s', ShoppingCart.export_shopping_list filename s = (Raise e, s')
                 /\ items s' = items s /\ db s' = db s /\ log s' = log s).
Proof.
  intros Hio. split.
  - intros Hother.
    unfold ShoppingCart.export_cart_to_json, try_except, open_w, write_close. run_m.
    destruct Hio as [Ho | [Ho Hw]]; rewrite Ho; simpl; [|rewrite Hw; simpl];
      rewrite Hother; eexists; repeat split.
  - intros Hraised.
    unfold ShoppingCart.export_shopping_list, open_w, write_close. run_m.
    destruct Hio as [Ho | [Ho Hw]]; rewrite Ho; simpl.
    + eexists; repeat split.
    + destruct Hraised as [Ho' | Hne]; [congruence|].
      destruct (fst (ShoppingCart.text_lines (items s))) as [|line lines];
        [contradiction|].
      rewrite Hw. simpl. eexists; repeat split.
Qed.

(** ** Migration *)

Lemma max_rowid_consecutive (t : table) (a n : nat) :
  map row_id t = map Z.of_nat (seq a (S n)) ->
  max_rowid t = Some (Z.of_nat (a + n)).
Proof.
  revert a n. induction t as [|r t IH]; intros a n H; [discriminate|].
  simpl in H. injection H as Hr Ht. simpl.
  destruct n as [|n].
  - destruct t; [|discriminate]. simpl. rewrite Hr. f_equal. lia.
  - rewrite (IH (S a) n Ht). rewrite Hr. f_equal. lia.
Qed.

Lemma next_rowid_ids_upto (t : table) (n : nat) :
  map row_id t = ids_upto n -> next_rowid t = Z.of_nat (S n).
Proof.
  unfold ids_upto, next_rowid. intros H. destruct n as [|n].
  - destruct t; [reflexivity | discriminate].
  - rewrite (max_rowid_consecutive t 1 n H). lia.
Qed.

Lemma copy_rows_renumbers (src : list raw_row) (acc : table) (k : nat) :
  map row_id acc = ids_upto k ->
  Forall not_null src ->
  exists t, copy_rows src acc = Ok t
            /\ map row_id t = ids_upto (k + length src)
            /\ map columns t = map columns acc ++ map raw_columns src.
Proof.
  intros Hacc Hsrc. revert acc k Hacc.
  induction Hsrc as [|r src [Hi Hp] _ IH]; intros acc k Hacc; simpl.
  - exists acc. rewrite Nat.add_0_r, app_nil_r. auto.
  - destruct r as [i [n|] [p|]]; simpl in *; try congruence.
    destruct (IH (acc ++ [Row (next_rowid acc) n p]) (S k)) as (t & Ht & Hids & Hcols).
    + rewrite map_app, Hacc, (next_rowid_ids_upto acc k Hacc). simpl.
      unfold ids_upto. rewrite seq_S, map_app. reflexivity.
    + exists t. split; [exact Ht|]. split.
      * rewrite Hids. f_equal. lia.
      * rewrite Hcols, map_app, <- app_assoc. reflexivity.
Qed.

(** C10: run at a version below 1 on a table without NULLs, the migration
    succeeds and leaves in [cart] the item and price columns of the old rows,
    in their order, under the ids 1, 2, ..., n given by the new table: the old
    ids play no part, and are kept only if they were 1, 2, ..., n already. *)
Theorem update_schema_renumbers (v : Z) (s : store) :
  v < 1 ->
  st_cart_new s = false ->
  Forall not_null (raw_rows (st_cart s)) ->
  exists t,
    Database.update_schema v s
    = (Ok tt, mkStore (Current t) false (st_version s ++ [1]))
    /\ map columns t = map raw_columns (raw_rows (st_cart s))
    /\ map row_id t = ids_upto (length (raw_rows (st_cart s)))
    /\ (map row_id t = map raw_id (raw_rows (st_cart s)) <->
        map raw_id (raw_rows (st_cart s)) = ids_upto (length (raw_rows (st_cart s)))).
Proof.
  intros Hv Hnew Hrows. unfold Database.update_schema.
  destruct (Z.ltb_spec v 1) as [_|Hge]; [|lia]. rewrite Hnew.
  destruct (copy_rows_renumbers (raw_rows (st_cart s)) [] 0 eq_refl Hrows)
    as (t & Ht & Hids & Hcols).
  rewrite Ht. exists t. simpl in Hids, Hcols.
  split; [reflexivity|]. split; [exact Hcols|]. split; [exact Hids|].
  rewrite Hids. split; intros H; congruence.
Qed.

Lemma update_schema_renumbers_witness :
  exists t,
    Database.update_schema 0 legacy_after_deletions
    = (Ok tt, mkStore (Current t) false (st_version legacy_after_deletions ++ [1]))
    /\ map columns t = map raw_columns (raw_rows (st_cart legacy_after_deletions))
    /\ map row_id t = ids_upto (length (raw_rows (st_cart legacy_after_deletions)))
    /\ (map row_id t = map raw_id (raw_rows (st_cart legacy_after_deletions)) <->
        map raw_id (raw_rows (st_cart legacy_after_deletions))
        = ids_upto (length (raw_rows (st_cart legacy_after_deletions)))).
Proof.
  apply (update_schema_renumbers 0 legacy_after_deletions); [reflexivity | reflexivity |].
  repeat constructor; simpl; discriminate.
Defined.

(** Two rows left with the ids 2 and 5 come out with the ids 1 and 2. *)
Example legacy_ids_renumbered :
  Database.update_schema 0 legacy_after_deletions
  = (Ok tt, mkStore (Current [Row 1 "Bread" 2.5; Row 2 "Milk" 0.99]) false [1]).
Proof. reflexivity. Qed.

(** A NULL in the old table makes the copy fail; the table [cart] is as it
    was and the empty [cart_new] stays behind, so that the next run fails at
    [CREATE TABLE cart_new]. *)
Example update_schema_null_price :
  let s := mkStore (Legacy [RawRow 1 (Some "Bread") None]) false [] in
  Database.update_schema 0 s
  = (Raise IntegrityError, mkStore (Legacy [RawRow 1 (Some "Bread") None]) true [])
  /\ fst (Database.update_schema 0 (snd (Database.update_schema 0 s)))
     = Raise OperationalError.
Proof. split; reflexivity. Qed.

(** * Part 4: further properties *)

(** ** Equations for the operations *)

Section RemoveFirst.

Variable name : string.

Lemma remove_first_absent (l : list Item) :
  absent name l -> remove_first name l = l.
Proof.
  induction 1 as [|y l Hy _ IH]; simpl; [reflexivity|].
  destruct (String.eqb_spec (item_name y) name); [contradiction|].
  f_equal. exact IH.
Qed.

Lemma remove_first_app (l1 l2 : list Item) (x : Item) :
  absent name l1 -> item_name x = name ->
  remove_first name (l1 ++ x :: l2) = l1 ++ l2.
Proof.
  intros Hall Hx. induction Hall as [|y l1 Hy _ IH]; simpl.
  - rewrite <- Hx, String.eqb_refl. reflexivity.
  - destruct (String.eqb_spec (item_name y) name); [contradiction|].
    f_equal. exact IH.
Qed.

Lemma occurrences_absent (l : list Item) :
  occurrences name l = O <-> absent name l.
Proof.
  unfold occurrences, absent. induction l as [|y l IH]; simpl.
  - split; auto.
  - destruct (String.eqb_spec (item_name y) name) as [E|E]; simpl.
    + split; [discriminate|]. intros H. inversion H; subst. contradiction.
    + rewrite IH. split; intros H.
      * constructor; assumption.
      * inversion H; assumption.
Qed.

Lemma occurrences_remove_first (l : list Item) :
  occurrences name (remove_first name l) = Nat.pred (occurrences name l).
Proof.
  unfold occurrences. induction l as [|y l IH]; simpl; [reflexivity|].
  destruct (String.eqb (item_name y) name) eqn:E; simpl.
  - reflexivity.
  - rewrite E. exact IH.
Qed.

Lemma length_remove_first (l : list Item) :
  length (remove_first name l)
  = (length l - match ShoppingCart.first_match name l with
                | Some _ => 1
                | None => 0
                end)%nat.
Proof.
  induction l as [|y l IH]; simpl; [reflexivity|].
  destruct (String.eqb (item_name y) name) eqn:E; simpl.
  - lia.
  - rewrite IH. destruct (ShoppingCart.first_match name l) as [[k j]|] eqn:F; simpl.
    + apply first_match_Some in F as (l1 & l2 & -> & _). rewrite length_app. simpl. lia.
    + lia.
Qed.

End RemoveFirst.

(** [remove_item] in one equation: the list loses its first entry of that
    name; the table and the log depend on whether the name can be bound. *)
Lemma remove_item_run (name : string) (s : state) :
  ShoppingCart.remove_item name s =
  (if utf8_encodable name then Ok tt else Raise UnicodeEncodeError,
   mkState (remove_first name (items s))
           (if utf8_encodable name then sql_delete name (db s) else db s)
           (log s
            ++ match ShoppingCart.first_match name (items s) with
               | Some _ => [(INFO, MsgCartRemoved name)]
               | None => []
               end
            ++ (if utf8_encodable name then [(INFO, MsgDbRemoved name)] else []))
           (fs s)).
Proof.
  unfold ShoppingCart.remove_item, Database.remove_item, bind_text. run_m.
  destruct (ShoppingCart.first_match name (items s)) as [[k x]|] eqn:E; simpl.
  - apply first_match_Some in E as (l1 & l2 & Hl & Hk & Hx & Hall).
    rewrite Hl, <- Hk, (py_list_remove_first_match name), (remove_first_app name)
      by assumption.
    destruct (utf8_encodable name); simpl; rewrite <- ?app_assoc; reflexivity.
  - apply first_match_None in E. rewrite (remove_first_absent name) by assumption.
    destruct (utf8_encodable name); simpl; [reflexivity|].
    rewrite app_nil_r. destruct s; reflexivity.
Qed.

(** ** [remove_item] followed by [get_item] *)

(** X1: after [remove_item(name)], [get_item(name)] is [None] exactly when at
    most one in-memory entry carried the name: of several entries with one
    name only the first goes, and the next one is found. *)
Theorem remove_then_get_None_iff (name : string) (s : state) :
  fst (ShoppingCart.get_item name (snd (ShoppingCart.remove_item name s))) = Ok None
  <-> (occurrences name (items s) <= 1)%nat.
Proof.
  rewrite remove_item_run, get_item_outcome. cbn [snd items].
  destruct (ShoppingCart.first_match name (remove_first name (items s)))
    as [[k x]|] eqn:E.
  - split; [discriminate|]. intros Hle. exfalso.
    assert (Hno : ShoppingCart.first_match name (remove_first name (items s)) = None).
    { apply first_match_None, occurrences_absent.
      rewrite occurrences_remove_first. lia. }
    congruence.
  - split; [|reflexivity]. intros _.
    apply first_match_None, occurrences_absent in E.
    rewrite occurrences_remove_first in E. lia.
Qed.

(** ** Ids given by the store *)

Lemma max_rowid_bound (t : table) (m : Z) :
  max_rowid t = Some m -> forall r, In r t -> row_id r <= m.
Proof.
  revert m. induction t as [|x t IH]; intros m Hm r Hr; [destruct Hr|].
  simpl in Hm. destruct (max_rowid t) as [m'|] eqn:E.
  - injection Hm as <-. destruct Hr as [<-|Hr]; [lia|].
    specialize (IH m' eq_refl r Hr). lia.
  - injection Hm as <-. destruct Hr as [<-|Hr]; [lia|].
    destruct t; [destruct Hr | simpl in E; destruct (max_rowid t); discriminate].
Qed.

(** The id of a new row is larger than every id in the table. *)
Lemma next_rowid_fresh (t : table) (r : row) : In r t -> row_id r < next_rowid t.
Proof.
  intros Hr. unfold next_rowid. destruct (max_rowid t) as [m|] eqn:E.
  - pose proof (max_rowid_bound t m E r Hr). lia.
  - destruct t; [destruct Hr | simpl in E; destruct (max_rowid t); discriminate].
Qed.

(** What a successful [add_item] has done. *)
Lemma add_item_success (name : string) (p : pynum) (s s' : state) (id : Z) :
  ShoppingCart.add_item (PyStr name) (num_to_pyval p) s = (Ok id, s') ->
  exists f,
    utf8_encodable name = true
    /\ stored_price p = Ok f
    /\ id = next_rowid (db s)
    /\ db s' = db s ++ [Row id name f]
    /\ items s' = items s ++ [mkItem (Some id) name p].
Proof.
  rewrite add_item_valid. cbv zeta. unfold sql_insert, bind_text.
  destruct (utf8_encodable name); [|discriminate].
  destruct (stored_price p) as [f|e]; [|discriminate].
  cbn [items]. rewrite set_id_at_appended.
  destruct (py_float p) as [shown|e]; [|discriminate].
  intros H. injection H as <- <-. exists f. repeat split.
Qed.

(** X2: on a cart whose list mirrors the table and whose largest row id is
    below 2^63-1, a successful [add_item] with a [float] price other than the
    negative zero keeps the list a mirror of the table (a refresh would change
    nothing): the new row and the new entry carry the returned id, the name and
    the price, and the id was not in use. *)
Theorem add_item_keeps_synced (name : string) (f : float) (id : Z) (s s' : state) :
  synced s ->
  next_rowid (db s) <= int64_max ->
  ((f =? 0)%float = true -> f = 0%float) ->
  ShoppingCart.add_item (PyStr name) (PyFloat f) s = (Ok id, s') ->
  synced s'
  /\ db s' = db s ++ [Row id name f]
  /\ ~ In id (row_ids (db s))
  /\ fst (ShoppingCart.refresh_items s') = Ok tt
  /\ items (snd (ShoppingCart.refresh_items s')) = items s'.
Proof.
  unfold synced. intros Hsync _ Hzero Hadd.
  destruct (add_item_success name (NFloat f) s s' id Hadd)
    as (g & _ & Hg & Hid & Hdb & Hitems).
  assert (g = f) as ->.
  { unfold stored_price in Hg. simpl in Hg.
    destruct (is_nan f); simpl in Hg; [discriminate|].
    injection Hg as <-. destruct (f =? 0)%float; [symmetry; auto | reflexivity]. }
  assert (Hs' : items s' = map ShoppingCart.item_of_row (db s')).
  { rewrite Hitems, Hdb, map_app, Hsync. reflexivity. }
  split; [exact Hs'|]. split; [exact Hdb|]. split; [|split].
  - unfold row_ids. rewrite in_map_iff. intros (r & Hr & Hin).
    pose proof (next_rowid_fresh (db s) r Hin). lia.
  - reflexivity.
  - unfold ShoppingCart.refresh_items, ShoppingCart.get_all_items. run_m.
    symmetry. exact Hs'.
Qed.

Lemma add_item_keeps_synced_witness :
  synced cart_with_apple
  /\ db cart_with_apple = db empty_cart ++ [Row 1 "Apple" 1.2]
  /\ ~ In 1 (row_ids (db empty_cart))
  /\ fst (ShoppingCart.refresh_items cart_with_apple) = Ok tt
  /\ items (snd (ShoppingCart.refresh_items cart_with_apple)) = items cart_with_apple.
Proof.
  apply (add_item_keeps_synced "Apple" 1.2 1 empty_cart cart_with_apple);
    try reflexivity.
  - discriminate.
  - discriminate.
Defined.

(** The negative zero is stored as 0.0: the list then holds what a refresh
    would not read. *)
Example add_item_negative_zero :
  let s := snd (ShoppingCart.add_item (PyStr "Apple") (PyFloat (-0)%float) empty_cart) in
  items s = [mkItem (Some 1) "Apple" (NFloat (-0)%float)]
  /\ items (snd (ShoppingCart.refresh_items s)) = [mkItem (Some 1) "Apple" (NFloat 0)].
Proof. split; reflexivity. Qed.

(** An [int] price is kept as an [int] in memory and stored as a REAL: the
    list is then not what a refresh would read. *)
Example add_item_int_price_not_synced :
  let s := snd (ShoppingCart.add_item (PyStr "Apple") (PyInt 5) empty_cart) in
  items s = [mkItem (Some 1) "Apple" (NInt 5)]
  /\ items (snd (ShoppingCart.refresh_items s)) = [mkItem (Some 1) "Apple" (NFloat 5)].
Proof. split; reflexivity. Qed.

(** ** Refresh *)

Lemma first_match_item_of_row (name : string) (t : table) :
  match ShoppingCart.first_match name (map ShoppingCart.item_of_row t) with
  | Some (_, i) => Some i
  | None => None
  end
  = option_map ShoppingCart.item_of_row (List.find (matches name) t).
Proof.
  induction t as [|r t IH]; simpl; [reflexivity|].
  unfold matches at 1. destruct (String.eqb (row_item r) name); [reflexivity|].
  rewrite <- IH.
  destruct (ShoppingCart.first_match name (map ShoppingCart.item_of_row t)) as [[k j]|];
    reflexivity.
Qed.

(** X3: [refresh_items] replaces the in-memory list by the rows of the table,
    whatever the list held before, and leaves the table alone; afterwards
    [get_item(name)] is the first row with that name, so every row of the
    table, also one written by someone else, is found under its name. *)
Theorem refresh_then_get (name : string) (s : state) :
  fst (ShoppingCart.refresh_items s) = Ok tt
  /\ synced (snd (ShoppingCart.refresh_items s))
  /\ db (snd (ShoppingCart.refresh_items s)) = db s
  /\ fst (ShoppingCart.get_item name (snd (ShoppingCart.refresh_items s)))
     = Ok (option_map ShoppingCart.item_of_row (List.find (matches name) (db s)))
  /\ (forall r, In r (db s) ->
        exists i, fst (ShoppingCart.get_item (row_item r)
                         (snd (ShoppingCart.refresh_items s))) = Ok (Some i)
                  /\ item_name i = row_item r).
Proof.
  assert (Hget : forall n, fst (ShoppingCart.get_item n (snd (ShoppingCart.refresh_items s)))
                 = Ok (option_map ShoppingCart.item_of_row (List.find (matches n) (db s)))).
  { intros n. rewrite get_item_outcome. f_equal. apply first_match_item_of_row. }
  split; [reflexivity|]. split; [reflexivity|]. split; [reflexivity|].
  split; [apply Hget|].
  intros r Hr. rewrite Hget.
  destruct (List.find (matches (row_item r)) (db s)) as [r'|] eqn:E.
  - exists (ShoppingCart.item_of_row r'). split; [reflexivity|].
    apply List.find_some in E as [_ E]. apply String.eqb_eq in E. exact E.
  - exfalso. pose proof (List.find_none _ _ E r Hr) as Hn.
    unfold matches in Hn. rewrite String.eqb_refl in Hn. discriminate.
Qed.

(** An entry left behind by a failed [add_item] with a huge [int] price makes
    the total raise as soon as a [float] is added to it; a refresh drops the
    entry. *)
Example total_raises_OverflowError :
  let s := snd (ShoppingCart.add_item (PyStr "Moon") (PyInt (2 ^ 1024)) cart_with_apple) in
  fst (ShoppingCart.get_total_price s) = Raise OverflowError
  /\ fst (ShoppingCart.get_total_price (snd (ShoppingCart.refresh_items s)))
     = Ok (NFloat 1.2).
Proof. split; vm_compute; reflexivity. Qed.

(** ** Mirror and table under [remove_item] *)

Section RowsByName.

Variable name : string.

Lemma occurrences_item_of_row (t : table) :
  occurrences name (map ShoppingCart.item_of_row t) = row_occurrences name t.
Proof.
  unfold occurrences, row_occurrences, matches.
  induction t as [|r t IH]; simpl; [reflexivity|].
  destruct (String.eqb (row_item r) name); simpl; rewrite IH; reflexivity.
Qed.

Lemma sql_delete_no_row (t : table) :
  row_occurrences name t = O -> sql_delete name t = t.
Proof.
  unfold row_occurrences, sql_delete, matches.
  induction t as [|r t IH]; simpl; [reflexivity|].
  destruct (String.eqb (row_item r) name); simpl; [discriminate|].
  intros H. f_equal. apply IH, H.
Qed.

Lemma length_sql_delete (t : table) :
  (length (sql_delete name t) + row_occurrences name t)%nat = length t.
Proof.
  unfold row_occurrences, sql_delete, matches.
  induction t as [|r t IH]; simpl; [reflexivity|].
  destruct (String.eqb (row_item r) name); simpl; lia.
Qed.

Lemma remove_first_item_of_row (t : table) :
  (row_occurrences name t <= 1)%nat ->
  remove_first name (map ShoppingCart.item_of_row t)
  = map ShoppingCart.item_of_row (sql_delete name t).
Proof.
  induction t as [|r t IH]; simpl; [reflexivity|].
  unfold row_occurrences, sql_delete, matches in *. simpl.
  destruct (String.eqb (row_item r) name); simpl; intros H.
  - f_equal. symmetry. apply sql_delete_no_row. unfold row_occurrences, matches. lia.
  - f_equal. apply IH, H.
Qed.

Lemma length_remove_first_present (l : list Item) :
  (1 <= occurrences name l)%nat ->
  S (length (remove_first name l)) = length l.
Proof.
  unfold occurrences. induction l as [|y l IH]; simpl; [lia|].
  destruct (String.eqb (item_name y) name); simpl; [reflexivity|].
  intros H. rewrite (IH H). reflexivity.
Qed.

End RowsByName.

(** X5: on a cart whose list mirrors the table, [remove_item(name)] keeps the
    list a mirror of the table exactly when at most one row carries the name;
    with two or more, the list loses one entry and the table all those rows.
    For a name that cannot be encoded the [DELETE] raises after the list lost
    its entry, and the mirror is kept exactly when no row carries the name. *)
Theorem remove_item_keeps_synced_iff (name : string) (s : state) :
  synced s ->
  (synced (snd (ShoppingCart.remove_item name s))
   <-> (row_occurrences name (db s) <= if utf8_encodable name then 1 else 0)%nat).
Proof.
  unfold synced. intros Hsync. rewrite remove_item_run. cbn [snd items db].
  rewrite Hsync.
  pose proof (length_sql_delete name (db s)) as Hdel.
  pose proof (length_remove_first_present name (map ShoppingCart.item_of_row (db s))) as Hrm.
  rewrite occurrences_item_of_row, length_map in Hrm.
  destruct (utf8_encodable name); split.
  - intros H. apply (f_equal length) in H. rewrite length_map in H.
    destruct (le_lt_dec (row_occurrences name (db s)) 1) as [Hle|Hgt]; [exact Hle|].
    exfalso. lia.
  - apply remove_first_item_of_row.
  - intros H. apply (f_equal length) in H. rewrite length_map in H.
    destruct (le_lt_dec (row_occurrences name (db s)) 0) as [Hle|Hgt]; [exact Hle|].
    exfalso. lia.
  - intros H. rewrite remove_first_item_of_row by lia.
    rewrite sql_delete_no_row by lia. reflexivity.
Qed.

Lemma remove_item_keeps_synced_iff_witness :
  synced (snd (ShoppingCart.remove_item "Apple" cart_with_apple_bread))
  <-> (row_occurrences "Apple" (db cart_with_apple_bread)
       <= if utf8_encodable "Apple" then 1 else 0)%nat.
Proof.
  apply (remove_item_keeps_synced_iff "Apple" cart_with_apple_bread). reflexivity.
Defined.

(** ** The count *)

Lemma length_update_first (old_name : string) (new_name : option string)
  (new_price : option pynum) (l : list Item) :
  length (ShoppingCart.update_first old_name new_name new_price l) = length l.
Proof.
  induction l as [|i l IH]; simpl; [reflexivity|].
  destruct (String.eqb (item_name i) old_name); simpl; [reflexivity|].
  rewrite IH. reflexivity.
Qed.

(** ** Equations for the updates *)

Lemma set_row_nothing (r : row) : set_row None None r = r.
Proof. destruct r; reflexivity. Qed.

Lemma updated_rows_nothing (old_name : string) (t : table) :
  updated_rows old_name None None t = t.
Proof.
  unfold updated_rows. induction t as [|r t IH]; simpl; [reflexivity|].
  rewrite IH, set_row_nothing. destruct (matches old_name r); reflexivity.
Qed.

Lemma updated_rows_no_match (old_name : string) (new_name : option string)
  (new_price : option float) (t : table) :
  existsb (matches old_name) t = false ->
  updated_rows old_name new_name new_price t = t.
Proof.
  unfold updated_rows. induction t as [|r t IH]; simpl; [reflexivity|].
  destruct (matches old_name r); simpl; [discriminate|].
  intros H. rewrite (IH H). reflexivity.
Qed.


(** Whatever [UPDATE] returns has the rows of [t] with some columns set. *)
Lemma sql_update_Ok (new_name : option string) (new_price : option pynum)
  (old_name : string) (t t' : table) :
  sql_update new_name new_price old_name t = Ok t' ->
  exists set_price, t' = updated_rows old_name new_name set_price t.
Proof.
  unfold sql_update. destruct (bind_opt_text new_name); [|discriminate].
  destruct new_price as [p|].
  - destruct (bind_num p) as [v|e]; [|discriminate].
    destruct (bind_text old_name); [|discriminate]. unfold sql_update_bound.
    destruct (existsb (matches old_name) t) eqn:E.
    + destruct (real_not_null v) as [f|e]; [|discriminate].
      intros H. injection H as <-. exists (Some f). reflexivity.
    + intros H. injection H as <-. exists None.
      rewrite updated_rows_no_match by exact E. reflexivity.
  - destruct (bind_text old_name); [|discriminate].
    intros H. injection H as <-. exists None. reflexivity.
Qed.

Lemma update_statement_Ok (new_name : option string) (new_price : option pynum)
  (old_name : string) (t t' : table) :
  update_statement new_name new_price old_name t = Ok t' ->
  exists set_price, t' = updated_rows old_name new_name set_price t.
Proof.
  unfold update_statement.
  destruct new_name as [n|], new_price as [p|]; try apply sql_update_Ok.
  intros H. injection H as <-. exists None. symmetry. apply updated_rows_nothing.
Qed.


(** [Database.update_item] in one equation: values that are false are not
    given, the rest is one [UPDATE]. *)
Lemma db_update_item_run (old_name : string) (new_name : option string)
  (new_price : option pynum) (s : state) :
  Database.update_item old_name new_name new_price s =
  match update_statement (effective_name new_name) (effective_price new_price)
                         old_name (db s) with
  | Ok t' => (Ok tt, mkState (items s) t' (log s) (fs s))
  | Raise e => (Raise e, s)
  end.
Proof.
  unfold Database.update_item, update_statement, effective_name, effective_price. run_m.
  destruct new_name as [n|], new_price as [p|]; simpl;
    repeat match goal with
           | |- context [negb ?b] => destruct b; simpl
           | |- context [num_truthy ?q] => destruct (num_truthy q); simpl
           | |- context [match sql_update ?a ?b ?c ?d with _ => _ end] =>
               destruct (sql_update a b c d); simpl
           end;
    try reflexivity; destruct s; reflexivity.
Qed.

(** [ShoppingCart.update_item] in one equation, once something is given. *)
Lemma update_item_run (old_name : string) (new_name : option string)
  (new_price : option pynum) (s : state) :
  ~ (new_name = None /\ new_price = None) ->
  ShoppingCart.update_item old_name new_name new_price s =
  let l := ShoppingCart.update_first old_name new_name new_price (items s) in
  match update_statement (effective_name new_name) (effective_price new_price)
                         old_name (db s) with
  | Ok t' =>
      (Ok tt,
       mkState l t'
         (log s ++ [(INFO, MsgCartUpdated old_name
                             (if opt_str_truthy new_name
                              then default old_name new_name else old_name)
                             (if opt_num_truthy new_price then new_price else None))])
         (fs s))
  | Raise e => (Raise e, mkState l (db s) (log s) (fs s))
  end.
Proof.
  intros Hgiven.
  assert (Hrun : ShoppingCart.update_item old_name new_name new_price s =
                 (l <- get_items ;;
                  set_items (ShoppingCart.update_first old_name new_name new_price l) ;;;
                  result <- Database.update_item old_name new_name new_price ;;
                  logging INFO
                    (MsgCartUpdated old_name
                       (if opt_str_truthy new_name
                        then default old_name new_name else old_name)
                       (if opt_num_truthy new_price then new_price else None)) ;;;
                  ret result) s).
  { unfold ShoppingCart.update_item.
    destruct new_name, new_price; try reflexivity. exfalso. auto. }
  rewrite Hrun. unfold bind at 1 2 3. unfold get_items, set_items. cbv beta iota zeta.
  rewrite db_update_item_run. cbn [items db log fs].
  destruct (update_statement (effective_name new_name) (effective_price new_price)
                             old_name (db s)); reflexivity.
Qed.

(** ** What [Database.update_item] does and does not touch *)

Lemma row_ids_updated_rows (old_name : string) (new_name : option string)
  (new_price : option float) (t : table) :
  row_ids (updated_rows old_name new_name new_price t) = row_ids t.
Proof.
  unfold row_ids, updated_rows. rewrite map_map. apply map_ext.
  intros r. destruct (matches old_name r); reflexivity.
Qed.

Lemma nth_error_updated_rows (old_name : string) (new_name : option string)
  (new_price : option float) (t : table) (k : nat) :
  nth_error (updated_rows old_name new_name new_price t) k
  = option_map (fun r => if matches old_name r
                         then set_row new_name new_price r else r)
               (nth_error t k).
Proof. unfold updated_rows. apply nth_error_map. Qed.

(** The ids of the rows after [Database.update_item]. *)
Lemma db_update_item_row_ids (old_name : string) (new_name : option string)
  (new_price : option pynum) (s : state) :
  row_ids (db (snd (Database.update_item old_name new_name new_price s)))
  = row_ids (db s).
Proof.
  rewrite db_update_item_run.
  destruct (update_statement (effective_name new_name) (effective_price new_price)
                             old_name (db s)) as [t'|e] eqn:E; cbn [snd]; [|reflexivity].
  apply update_statement_Ok in E as [sp ->]. apply row_ids_updated_rows.
Qed.

(** X6: whatever its arguments and whether or not it raises,
    [Database.update_item] keeps the ids of all rows in place (no row is added
    or deleted), keeps every row with another name as it is, and touches
    neither the in-memory list, nor the log, nor the files. *)
Theorem db_update_item_frame (old_name : string) (new_name : option string)
  (new_price : option pynum) (s : state) :
  let s' := snd (Database.update_item old_name new_name new_price s) in
  row_ids (db s') = row_ids (db s)
  /\ (forall k r, nth_error (db s) k = Some r -> row_item r <> old_name ->
                  nth_error (db s') k = Some r)
  /\ items s' = items s /\ log s' = log s /\ fs s' = fs s.
Proof.
  cbv zeta. rewrite db_update_item_run.
  destruct (update_statement (effective_name new_name) (effective_price new_price)
                             old_name (db s)) as [t'|e] eqn:E; cbn [snd].
  - apply update_statement_Ok in E as [sp ->]. cbn [db items log fs].
    split; [apply row_ids_updated_rows|]. split; [|auto].
    intros k r Hk Hr. rewrite nth_error_updated_rows, Hk. simpl.
    unfold matches. destruct (String.eqb_spec (row_item r) old_name); [contradiction|].
    reflexivity.
  - auto.
Qed.



(** A name that cannot be encoded makes the [UPDATE] raise, whether it is the
    new name or the old one; an [int] price is set as a REAL. *)
Example db_update_item_unencodable_name :
  Database.update_item "Apple" (Some lone_surrogate) None one_apple
  = (Raise UnicodeEncodeError, one_apple)
  /\ Database.update_item lone_surrogate (Some "Pear") None one_apple
     = (Raise UnicodeEncodeError, one_apple)
  /\ db (snd (Database.update_item "Apple" (Some "Pear") (Some (NInt (-3))) one_apple))
     = [Row 1 "Pear" (-3)%float].
Proof. repeat split; vm_compute; reflexivity. Qed.

(** ** [update_item] when the store raises *)

(** X8: [update_item] changes the in-memory entry before it updates the store;
    when the store raises, the exception leaves [update_item] with the entry
    changed in memory, the table as it was and nothing logged. *)
Theorem update_item_store_raises (old_name : string) (new_name : option string)
  (new_price : option pynum) (e : exn) (s : state) :
  ~ (new_name = None /\ new_price = None) ->
  fst (Database.update_item old_name new_name new_price s) = Raise e ->
  ShoppingCart.update_item old_name new_name new_price s
  = (Raise e,
     mkState (ShoppingCart.update_first old_name new_name new_price (items s))
             (db s) (log s) (fs s)).
Proof.
  intros Hgiven. rewrite db_update_item_run, update_item_run by exact Hgiven.
  cbv zeta.
  destruct (update_statement (effective_name new_name) (effective_price new_price)
                             old_name (db s)); simpl; congruence.
Qed.

Lemma update_item_store_raises_witness :
  ShoppingCart.update_item "Apple" None (Some (NFloat nan)) one_apple
  = (Raise IntegrityError,
     mkState [mkItem (Some 1) "Apple" (NFloat nan)] [apple_row]
             (log one_apple) no_files).
Proof.
  apply (update_item_store_raises "Apple" None (Some (NFloat nan)) IntegrityError
           one_apple).
  - intros [_ H]. discriminate.
  - reflexivity.
Defined.

(** ** Mirror and table under [update_item] *)





(** ** [update_item] followed by [get_item] *)

Lemma update_first_split (old_name : string) (new_name : option string)
  (new_price : option pynum) (l1 l2 : list Item) (x : Item) :
  absent old_name l1 -> item_name x = old_name ->
  ShoppingCart.update_first old_name new_name new_price (l1 ++ x :: l2)
  = l1 ++ mkItem (item_id x) (default (item_name x) new_name)
                 (default (item_price x) new_price) :: l2.
Proof.
  intros Hall Hx. induction Hall as [|y l1 Hy _ IH]; simpl.
  - rewrite <- Hx, String.eqb_refl. reflexivity.
  - destruct (String.eqb_spec (item_name y) old_name); [contradiction|].
    f_equal. exact IH.
Qed.

Lemma first_match_split (name : string) (l1 l2 : list Item) (x : Item) :
  absent name l1 -> item_name x = name ->
  ShoppingCart.first_match name (l1 ++ x :: l2) = Some (length l1, x).
Proof.
  intros Hall Hx. induction Hall as [|y l1 Hy _ IH]; simpl.
  - rewrite <- Hx, String.eqb_refl. reflexivity.
  - destruct (String.eqb_spec (item_name y) name); [contradiction|].
    rewrite IH. reflexivity.
Qed.

(** The in-memory list after [update_item], whatever the store did. *)
Lemma update_item_items (old_name : string) (new_name : option string)
  (new_price : option pynum) (s : state) :
  ~ (new_name = None /\ new_price = None) ->
  items (snd (ShoppingCart.update_item old_name new_name new_price s))
  = ShoppingCart.update_first old_name new_name new_price (items s).
Proof.
  intros Hgiven. rewrite update_item_run by exact Hgiven. cbv zeta.
  destruct (update_statement (effective_name new_name) (effective_price new_price)
                             old_name (db s)); reflexivity.
Qed.

(** X10: renaming the entry [get_item(old_name)] returns to a name that no
    entry carries makes [get_item(new_name)] return that entry, with its id,
    the new name and the new price if one was given (its old price otherwise);
    this holds also when the store raises. *)
Theorem update_then_get (old_name new_name : string) (new_price : option pynum)
  (x : Item) (s : state) :
  fst (ShoppingCart.get_item old_name s) = Ok (Some x) ->
  absent new_name (items s) ->
  fst (ShoppingCart.get_item new_name
         (snd (ShoppingCart.update_item old_name (Some new_name) new_price s)))
  = Ok (Some (mkItem (item_id x) new_name (default (item_price x) new_price))).
Proof.
  rewrite !get_item_outcome. intros Hget Hfresh.
  destruct (ShoppingCart.first_match old_name (items s)) as [[k y]|] eqn:E;
    [|discriminate].
  injection Hget as ->.
  apply first_match_Some in E as (l1 & l2 & Hl & _ & Hx & Hall).
  rewrite update_item_items by (intros [H _]; discriminate).
  rewrite Hl, (update_first_split old_name) by assumption.
  unfold absent in Hfresh. rewrite Hl in Hfresh.
  apply Forall_app in Hfresh as [Hfresh1 _].
  rewrite (first_match_split new_name) by (auto; reflexivity).
  reflexivity.
Qed.

Lemma update_then_get_witness :
  fst (ShoppingCart.get_item "Pear"
         (snd (ShoppingCart.update_item "Apple" (Some "Pear") None one_apple)))
  = Ok (Some (mkItem (item_id (mkItem (Some 1) "Apple" (NFloat 1.2))) "Pear"
                (default (item_price (mkItem (Some 1) "Apple" (NFloat 1.2))) None))).
Proof.
  apply (update_then_get "Apple" "Pear" None (mkItem (Some 1) "Apple" (NFloat 1.2))
           one_apple).
  - reflexivity.
  - repeat constructor. simpl. discriminate.
Defined.

(** ** The count under the operations *)

(** X11: [get_count] is the length of the in-memory list: [add_item] on valid
    arguments raises it by one even when the store insert raises,
    [remove_item] lowers it by one exactly when an entry carried the name, and
    [update_item] never changes it. *)
Theorem get_count_after (name : string) (p : pynum) (new_name : option string)
  (new_price : option pynum) (s : state) :
  exists c,
    fst (ShoppingCart.get_count s) = Ok c
    /\ fst (ShoppingCart.get_count
              (snd (ShoppingCart.add_item (PyStr name) (num_to_pyval p) s)))
       = Ok (c + 1)
    /\ fst (ShoppingCart.get_count (snd (ShoppingCart.remove_item name s)))
       = Ok (match fst (ShoppingCart.get_item name s) with
             | Ok (Some _) => c - 1
             | _ => c
             end)
    /\ fst (ShoppingCart.get_count
              (snd (ShoppingCart.update_item name new_name new_price s)))
       = Ok c.
Proof.
  exists (Z.of_nat (length (items s))).
  assert (Hc : forall st, fst (ShoppingCart.get_count st) = Ok (Z.of_nat (length (items st))))
    by reflexivity.
  rewrite !Hc. split; [reflexivity|]. split; [|split].
  - destruct (add_item_items name p s) as (oid & -> & _).
    rewrite length_app. simpl. f_equal. lia.
  - rewrite remove_item_run, get_item_outcome. cbn [snd items].
    rewrite length_remove_first.
    destruct (ShoppingCart.first_match name (items s)) as [[k x]|] eqn:E.
    + apply first_match_Some in E as (l1 & l2 & -> & _).
      rewrite length_app. simpl. f_equal. lia.
    + f_equal. lia.
  - destruct new_name as [n|] eqn:En, new_price as [q|] eqn:Eq;
      try (rewrite update_item_items by (intros [H1 H2]; discriminate);
           rewrite length_update_first; reflexivity).
    reflexivity.
Qed.

(** ** Row ids stay unique *)

Lemma NoDup_row_ids_sql_delete (name : string) (t : table) :
  List.NoDup (row_ids t) -> List.NoDup (row_ids (sql_delete name t)).
Proof.
  unfold row_ids, sql_delete. induction t as [|r t IH]; simpl; [auto|].
  intros H. inversion H as [|? ? Hnotin Hrest]; subst.
  destruct (negb (String.eqb (row_item r) name)); simpl; [|auto].
  constructor; [|auto].
  intros Hin. apply Hnotin. apply in_map_iff in Hin as (r' & Hr' & Hin).
  apply in_map_iff. exists r'. split; [exact Hr'|].
  apply List.filter_In in Hin as [Hin _]. exact Hin.
Qed.

Lemma NoDup_snoc (l : list Z) (a : Z) :
  ~ In a l -> List.NoDup l -> List.NoDup (l ++ [a]).
Proof.
  intros Ha. induction 1 as [|x l Hx Hl IH]; simpl.
  - constructor; [intros [] | constructor].
  - constructor.
    + rewrite in_app_iff. intros [H|[H|[]]]; [contradiction|].
      apply Ha. left. symmetry. exact H.
    + apply IH. intros H. apply Ha. right. exact H.
Qed.

(** X12: on a table whose largest row id is below 2^63-1, the operations of
    [Database] keep the row ids pairwise distinct, whether or not they raise,
    and the id [Database.add_item] returns is new and is the id of the last
    row. *)
Theorem db_row_ids_unique (name : string) (p : pynum) (new_name : option string)
  (new_price : option pynum) (s : state) :
  List.NoDup (row_ids (db s)) ->
  next_rowid (db s) <= int64_max ->
  List.NoDup (row_ids (db (snd (Database.add_item name p s))))
  /\ List.NoDup (row_ids (db (snd (Database.remove_item name s))))
  /\ List.NoDup (row_ids (db (snd (Database.update_item name new_name new_price s))))
  /\ (forall id, fst (Database.add_item name p s) = Ok id ->
                 ~ In id (row_ids (db s))
                 /\ id <= int64_max
                 /\ row_ids (db (snd (Database.add_item name p s)))
                    = row_ids (db s) ++ [id]).
Proof.
  intros Hnd Hmax.
  assert (Hfresh : ~ In (next_rowid (db s)) (row_ids (db s))).
  { unfold row_ids. rewrite in_map_iff. intros (r & Hr & Hin).
    pose proof (next_rowid_fresh (db s) r Hin). lia. }
  assert (Hins : forall i t', sql_insert name p (db s) = Ok (i, t') ->
                          i = next_rowid (db s) /\ row_ids t' = row_ids (db s) ++ [i]).
  { unfold sql_insert. destruct (bind_text name); [|discriminate].
    destruct (stored_price p) as [f|e]; [|discriminate].
    intros i t' H. injection H as <- <-. split; [reflexivity|].
    unfold row_ids. rewrite map_app. reflexivity. }
  split; [|split; [|split]].
  - unfold Database.add_item. run_m.
    destruct (sql_insert name p (db s)) as [[i t']|e]; cbn [snd db fst]; [|exact Hnd].
    destruct (Hins i t' eq_refl) as [-> ->].
    apply NoDup_snoc; assumption.
  - unfold Database.remove_item. run_m.
    destruct (bind_text name); cbn [snd db]; [|exact Hnd].
    apply NoDup_row_ids_sql_delete, Hnd.
  - rewrite db_update_item_row_ids. exact Hnd.
  - intros id. unfold Database.add_item. run_m.
    destruct (sql_insert name p (db s)) as [[i t']|e]; cbn [snd db fst]; [|discriminate].
    destruct (Hins i t' eq_refl) as [Hi Ht].
    intros H. injection H as <-. rewrite Ht. split; [rewrite Hi; exact Hfresh|].
    split; [rewrite Hi; exact Hmax | reflexivity].
Qed.

Lemma db_row_ids_unique_witness :
  List.NoDup (row_ids (db (snd (Database.add_item "Pear" (NFloat 2.5) one_apple))))
  /\ List.NoDup (row_ids (db (snd (Database.remove_item "Pear" one_apple))))
  /\ List.NoDup (row_ids (db (snd (Database.update_item "Pear" None
                                     (Some (NFloat 2.5)) one_apple))))
  /\ (forall id, fst (Database.add_item "Pear" (NFloat 2.5) one_apple) = Ok id ->
                 ~ In id (row_ids (db one_apple))
                 /\ id <= int64_max
                 /\ row_ids (db (snd (Database.add_item "Pear" (NFloat 2.5) one_apple)))
                    = row_ids (db one_apple) ++ [id]).
Proof.
  apply (db_row_ids_unique "Pear" (NFloat 2.5) None (Some (NFloat 2.5)) one_apple).
  - repeat constructor. intros [].
  - discriminate.
Defined.

(** ** Ids of a cart filled from empty *)

(** X13: on an empty cart over an empty table, n calls of [add_item] that all
    succeed give the ids 1, 2, ..., n, in the order of the calls, to the rows
    and to the in-memory entries alike, under the names given. *)
Theorem add_all_ids (adds : list (string * pynum)) (s s' : state) :
  items s = [] -> db s = [] ->
  add_all adds s = (Ok tt, s') ->
  row_ids (db s') = ids_upto (length adds)
  /\ map item_id (items s') = map Some (ids_upto (length adds))
  /\ map row_item (db s') = map fst adds
  /\ map item_name (items s') = map fst adds.
Proof.
  intros Hitems Hdb.
  assert (Hgen : forall adds s s' k names,
            row_ids (db s) = ids_upto k ->
            map item_id (items s) = map Some (ids_upto k) ->
            map row_item (db s) = names ->
            map item_name (items s) = names ->
            add_all adds s = (Ok tt, s') ->
            row_ids (db s') = ids_upto (k + length adds)
            /\ map item_id (items s') = map Some (ids_upto (k + length adds))
            /\ map row_item (db s') = names ++ map fst adds
            /\ map item_name (items s') = names ++ map fst adds).
  { clear. induction adds as [|[name p] adds IH]; intros s s' k names Hr Hi Hn Hm; simpl.
    - unfold ret. intros H. injection H as <-.
      rewrite Nat.add_0_r, app_nil_r. auto.
    - unfold bind.
      destruct (ShoppingCart.add_item (PyStr name) (num_to_pyval p) s)
        as [[id|e] s1] eqn:E; [|discriminate].
      apply add_item_success in E as (f & _ & _ & Hid & Hdb1 & Hit1).
      assert (Hidk : id = Z.of_nat (S k)).
      { rewrite Hid. apply next_rowid_ids_upto. exact Hr. }
      intros Hrest.
      destruct (IH s1 s' (S k) (names ++ [name])) as (H1 & H2 & H3 & H4); auto.
      + rewrite Hdb1. unfold row_ids in *. rewrite map_app, Hr.
        unfold ids_upto. rewrite seq_S, map_app, Hidk. reflexivity.
      + rewrite Hit1, map_app, Hi.
        unfold ids_upto. rewrite seq_S, !map_app, Hidk. reflexivity.
      + rewrite Hdb1, map_app, Hn. reflexivity.
      + rewrite Hit1, map_app, Hm. reflexivity.
      + replace (k + S (length adds))%nat with (S k + length adds)%nat by lia.
        rewrite <- !app_assoc in H3, H4. auto. }
  intros Hadds.
  apply (Hgen adds s s' O []); auto; rewrite ?Hitems, ?Hdb; reflexivity.
Qed.

Lemma add_all_ids_witness :
  row_ids (db cart_with_apple_bread)
  = ids_upto (length [("Apple", NFloat 1.2); ("Bread", NFloat 2.5)])
  /\ map item_id (items cart_with_apple_bread)
     = map Some (ids_upto (length [("Apple", NFloat 1.2); ("Bread", NFloat 2.5)]))
  /\ map row_item (db cart_with_apple_bread)
     = map fst [("Apple", NFloat 1.2); ("Bread", NFloat 2.5)]
  /\ map item_name (items cart_with_apple_bread)
     = map fst [("Apple", NFloat 1.2); ("Bread", NFloat 2.5)].
Proof.
  apply (add_all_ids [("Apple", NFloat 1.2); ("Bread", NFloat 2.5)]
           empty_cart cart_with_apple_bread); reflexivity.
Defined.

(** An id is given again once the row that had it, the last one, is gone. *)
Example rowid_reused :
  let s := snd (ShoppingCart.remove_item "Bread" cart_with_apple_bread) in
  fst (ShoppingCart.add_item (PyStr "Milk") (PyFloat 0.99) s) = Ok 2.
Proof. reflexivity. Qed.

(** ** Running the migration again *)

Lemma fold_right_max_In (v : Z) (vs : list Z) (x : Z) :
  In x (v :: vs) -> x <= fold_right Z.max v vs.
Proof.
  induction vs as [|w vs IH]; simpl.
  - intros [->|[]]. lia.
  - intros [->|[->|H]].
    + specialize (IH (or_introl eq_refl)). lia.
    + lia.
    + specialize (IH (or_intror H)). lia.
Qed.

Lemma current_version_snoc (c : cart_table) (b : bool) (vs : list Z) :
  1 <= Database.current_version (mkStore c b (vs ++ [1])).
Proof.
  unfold Database.current_version. cbn [st_version].
  destruct (vs ++ [1]) as [|v vs'] eqn:E; [destruct vs; discriminate|].
  apply fold_right_max_In. rewrite <- E. apply in_app_iff. right. left. reflexivity.
Qed.

(** X14: once [ensure_database_version] has succeeded, running it again, as
    every later start of the program does, changes nothing: the rows and their
    ids are migrated at most once. *)
Theorem ensure_database_version_idempotent (s s' : store) :
  Database.ensure_database_version s = (Ok tt, s') ->
  Database.ensure_database_version s' = (Ok tt, s').
Proof.
  unfold Database.ensure_database_version, Database.update_schema.
  destruct (Z.ltb_spec (Database.current_version s) 1) as [Hlt|Hge].
  - destruct (st_cart_new s); [discriminate|].
    destruct (copy_rows (raw_rows (st_cart s)) []) as [t|e]; [|discriminate].
    intros H. injection H as <-.
    pose proof (current_version_snoc (Current t) false (st_version s)) as Hv.
    destruct (Z.ltb_spec (Database.current_version
                            (mkStore (Current t) false (st_version s ++ [1]))) 1);
      [lia | reflexivity].
  - intros H. injection H as <-.
    destruct (Z.ltb_spec (Database.current_version s) 1); [lia | reflexivity].
Qed.

Lemma ensure_database_version_idempotent_witness :
  Database.ensure_database_version (mkStore (Current []) false [1])
  = (Ok tt, mkStore (Current []) false [1]).
Proof.
  apply (ensure_database_version_idempotent fresh_store). reflexivity.
Defined.

(** ** A migration that fails *)

Lemma copy_rows_null (src : list raw_row) :
  Exists has_null src -> forall acc, copy_rows src acc = Raise IntegrityError.
Proof.
  induction 1 as [r src Hr | r src _ IH]; intros acc; simpl.
  - destruct Hr as [-> | Hp]; [reflexivity|].
    rewrite Hp. destruct (raw_item r); reflexivity.
  - destruct (raw_item r), (raw_price r); auto.
Qed.

(** X15: run at a version below 1 on a table in which some row holds a NULL,
    the migration raises [IntegrityError]; the table [cart] and the version rows
    are as they were, but the table [cart_new] it created stays, so that every
    later run at a version below 1 raises [OperationalError] without touching
    anything. *)
Theorem update_schema_null_row (v : Z) (s : store) :
  v < 1 ->
  st_cart_new s = false ->
  Exists has_null (raw_rows (st_cart s)) ->
  Database.update_schema v s
  = (Raise IntegrityError, mkStore (st_cart s) true (st_version s))
  /\ Database.ensure_database_version (snd (Database.update_schema v s))
     = (if Database.current_version s <? 1
        then (Raise OperationalError, mkStore (st_cart s) true (st_version s))
        else (Ok tt, mkStore (st_cart s) true (st_version s))).
Proof.
  intros Hv Hnew Hnull.
  assert (Hrun : Database.update_schema v s
                 = (Raise IntegrityError, mkStore (st_cart s) true (st_version s))).
  { unfold Database.update_schema.
    destruct (Z.ltb_spec v 1); [|lia]. rewrite Hnew, copy_rows_null by exact Hnull.
    reflexivity. }
  split; [exact Hrun|]. rewrite Hrun. cbn [snd].
  unfold Database.ensure_database_version, Database.update_schema,
    Database.current_version. cbn [st_version st_cart_new].
  destruct (_ <? 1); reflexivity.
Qed.

Lemma update_schema_null_row_witness :
  Database.update_schema 0 (mkStore (Legacy [RawRow 1 (Some "Bread") None]) false [])
  = (Raise IntegrityError, mkStore (Legacy [RawRow 1 (Some "Bread") None]) true [])
  /\ Database.ensure_database_version
       (snd (Database.update_schema 0
               (mkStore (Legacy [RawRow 1 (Some "Bread") None]) false [])))
     = (Raise OperationalError, mkStore (Legacy [RawRow 1 (Some "Bread") None]) true []).
Proof.
  apply (update_schema_null_row 0
           (mkStore (Legacy [RawRow 1 (Some "Bread") None]) false [])).
  - reflexivity.
  - reflexivity.
  - constructor. right. reflexivity.
Defined.

(** ** What the exports write *)

Lemma text_lines_render (l : list Item) :
  Forall (fun i => num_renders (item_price i) = true) l ->
  Forall (fun i => utf8_encodable (item_name i) = true) l ->
  ShoppingCart.text_lines l = (map (fun i => (item_name i, item_price i)) l, None).
Proof.
  induction l as [|i l IH]; simpl; [reflexivity|].
  intros Hn He. inversion Hn as [|? ? Hi Hl]; subst.
  inversion He as [|? ? Hi' Hl']; subst.
  unfold ShoppingCart.text_line. rewrite Hi, Hi'. simpl.
  rewrite (IH Hl Hl'). reflexivity.
Qed.

Lemma json_failure_none (l : list Item) :
  Forall (fun i => num_renders (item_price i) = true) l ->
  ShoppingCart.json_failure l = None.
Proof.
  intros H. unfold ShoppingCart.json_failure.
  replace (forallb (fun i => num_renders (item_price i)) l) with true; [reflexivity|].
  symmetry. apply forallb_forall. apply List.Forall_forall. exact H.
Qed.

(** X17: when the file can be opened and written, every price can be printed
    (an [int] has at most 4300 digits) and, for the text export, every name
    can be encoded, the text export returns normally with one (name, price)
    line per in-memory entry, in list order, in the file, and the JSON export
    with the in-memory entries; each logs one INFO record. *)
Theorem exports_write_the_cart (filename : string) (s : state) :
  open_fault (fs s) !! filename = None ->
  write_fault (fs s) !! filename = None ->
  Forall (fun i => num_renders (item_price i) = true) (items s) ->
  Forall (fun i => utf8_encodable (item_name i) = true) (items s) ->
  (exists s1,
      ShoppingCart.export_shopping_list filename s = (Ok tt, s1)
      /\ contents (fs s1) !! filename
         = Some (TextList (map (fun i => (item_name i, item_price i)) (items s)))
      /\ log s1 = log s ++ [(INFO, MsgListExported filename)])
  /\ (exists s2,
         ShoppingCart.export_cart_to_json filename s = (Ok tt, s2)
         /\ contents (fs s2) !! filename = Some (JsonDump (items s))
         /\ log s2 = log s ++ [(INFO, MsgCartExported filename)]).
Proof.
  intros Ho Hw Hnum Henc.
  unfold ShoppingCart.export_shopping_list, ShoppingCart.export_cart_to_json,
    try_except, open_w, write_close. run_m.
  rewrite Ho. simpl. rewrite Hw. split.
  - rewrite (text_lines_render (items s)) by assumption. simpl.
    destruct (map _ (items s)); simpl; eexists;
      (split; [reflexivity|]); simpl; (split; [apply lookup_insert_eq | reflexivity]).
  - rewrite (json_failure_none (items s)) by assumption.
    simpl. eexists. split; [reflexivity|]. simpl.
    split; [apply lookup_insert_eq | reflexivity].
Qed.

Lemma exports_write_the_cart_witness :
  (exists s1,
      ShoppingCart.export_shopping_list "list.txt" cart_with_apple_bread = (Ok tt, s1)
      /\ contents (fs s1) !! "list.txt"
         = Some (TextList (map (fun i => (item_name i, item_price i))
                               (items cart_with_apple_bread)))
      /\ log s1 = log cart_with_apple_bread ++ [(INFO, MsgListExported "list.txt")])
  /\ (exists s2,
         ShoppingCart.export_cart_to_json "list.txt" cart_with_apple_bread = (Ok tt, s2)
         /\ contents (fs s2) !! "list.txt" = Some (JsonDump (items cart_with_apple_bread))
         /\ log s2 = log cart_with_apple_bread ++ [(INFO, MsgCartExported "list.txt")]).
Proof.
  apply (exports_write_the_cart "list.txt" cart_with_apple_bread);
    try reflexivity; repeat constructor.
Defined.
